(** * TextbookSaver: quota policy, marketplace clients, aggregator and
    billing bridge of [textbook_app.py], embedded and verified.

    Conventions of the embedding.
    - A naive [datetime] is the number of microseconds since the origin of the
      calendar, an integer; [date] is the day it falls in.  Every call of
      [datetime.utcnow()] in the source is a separate reading of the clock and
      appears here as a separate argument, named after the place it is read.
    - Python [int] is [Z]; a Python [float] is an IEEE 754 binary64 value,
      [double]: the specification floats of the standard library at precision
      53 and maximal exponent 1024, with their rounding to nearest even, their
      infinities and nan.
    - Decoded JSON and the dict/list/str values built from it are [json].
    - Code that can raise returns a [result]; the exception classes are the
      ones the [except] clauses of the source tell apart. *)

From Stdlib Require Import ZArith Bool List String Ascii Lia.
From Stdlib Require Import SpecFloat.
From Stdlib Require Import Sorted Permutation FinFun.
Import ListNotations.

Set Warnings "-register-all".

Local Open Scope string_scope.
Local Open Scope Z_scope.

(** ** Exceptions and results *)

Inductive exn : Type :=
| KeyError
| IndexError
| ValueError
| TypeError
| AttributeError
| OverflowError      (* float() of an int beyond the range of a float *)
| RequestException   (* requests: connection error, timeout, ... *)
| JSONDecodeError.   (* response.json() on a body that is not JSON *)

Inductive result (A : Type) : Type :=
| Ok (a : A)
| Raise (e : exn).
Arguments Ok {A} a.
Arguments Raise {A} e.

Definition bind {A B : Type} (r : result A) (k : A -> result B) : result B :=
  match r with
  | Ok a => k a
  | Raise e => Raise e
  end.

Notation "x <- r ;; k" := (bind r (fun x => k))
  (at level 61, r at next level, right associativity).

Definition raises {A : Type} (r : result A) : Prop :=
  exists e, r = Raise e.

Definition returns {A : Type} (r : result A) (a : A) : Prop := r = Ok a.

(** ** Time *)

Definition datetime := Z.

Definition microseconds_per_day : Z := 86400000000.

(** [d.date()], as the ordinal of the day. *)
Definition date (d : datetime) : Z := d / microseconds_per_day.

(** [d + timedelta(days=n)]. *)
Definition add_days (d : datetime) (n : Z) : datetime :=
  d + n * microseconds_per_day.

(** ** Accounts (class [User]) *)

Record User : Type := mkUser {
  id : Z;
  email : string;
  password_hash : option string;
  is_premium : bool;
  stripe_customer_id : option string;
  premium_expires : option datetime;
  searches_today : Z;
  last_search_reset : datetime;
  created_at : datetime
}.

Definition set_searches_today (u : User) (n : Z) : User :=
  mkUser (id u) (email u) (password_hash u) (is_premium u)
         (stripe_customer_id u) (premium_expires u) n
         (last_search_reset u) (created_at u).

Definition set_last_search_reset (u : User) (t : datetime) : User :=
  mkUser (id u) (email u) (password_hash u) (is_premium u)
         (stripe_customer_id u) (premium_expires u) (searches_today u)
         t (created_at u).

Definition set_is_premium (u : User) (b : bool) : User :=
  mkUser (id u) (email u) (password_hash u) b
         (stripe_customer_id u) (premium_expires u) (searches_today u)
         (last_search_reset u) (created_at u).

Definition set_premium_expires (u : User) (e : option datetime) : User :=
  mkUser (id u) (email u) (password_hash u) (is_premium u)
         (stripe_customer_id u) e (searches_today u)
         (last_search_reset u) (created_at u).

(** [self.is_premium and self.premium_expires > now]: [and] short-circuits, so
    the comparison runs only for a set flag; comparing [None] with a datetime
    raises [TypeError]. *)
Definition premium_active (u : User) (now : datetime) : result bool :=
  if is_premium u then
    match premium_expires u with
    | Some e => Ok (now <? e)
    | None => Raise TypeError
    end
  else Ok false.

(** The first statement of [can_search]: the lazy reset of the counter.
    [now_date] is the reading compared by date, [now_stamp] the reading
    stored. *)
Definition reset_if_new_day (now_date now_stamp : datetime) (u : User) : User :=
  if date (last_search_reset u) <? date now_date
  then set_last_search_reset (set_searches_today u 0) now_stamp
  else u.

(** [User.can_search].  The account after the call is returned next to the
    outcome: the reset is committed before the premium test, so it stays when
    that test raises. *)
Definition can_search (now_date now_stamp now_prem : datetime) (u : User)
  : result bool * User :=
  let u1 := reset_if_new_day now_date now_stamp u in
  (active <- premium_active u1 now_prem ;;
   if active then Ok true else Ok (searches_today u1 <? 5),
   u1).

(** [User.increment_search]. *)
Definition increment_search (now : datetime) (u : User) : result unit * User :=
  match premium_active u now with
  | Ok active =>
      if negb active
      then (Ok tt, set_searches_today u (searches_today u + 1))
      else (Ok tt, u)
  | Raise e => (Raise e, u)
  end.

(** The invariant of stored accounts: a set premium flag comes with an
    expiry. *)
Definition premium_wf (u : User) : Prop :=
  is_premium u = true -> premium_expires u <> None.

(** ** Python floats *)

Definition double : Type := spec_float.

Definition zero : double := S754_zero false.

Definition infinity : double := S754_infinity false.

(** [x - y] and [x / y], rounded to nearest even. *)
Definition double_sub : double -> double -> double := SFsub 53 1024.

Definition double_div : double -> double -> double := SFdiv 53 1024.

(** The double nearest to an integer, an infinity when the integer is beyond
    the range. *)
Definition double_of_int (z : Z) : double := binary_normalize 53 1024 z 0 false.

(** ** Decoded JSON and the Python operations applied to it *)

(** A number of the body is decoded to an [int] or to a [float]. *)
Inductive json : Type :=
| JNull
| JBool (b : bool)
| JInt (z : Z)
| JFloat (d : double)
| JStr (s : string)
| JArr (l : list json)
| JObj (kvs : list (string * json)).

(** A dict is kept as its list of bindings; the first binding of a key is the
    one the dict holds. *)
Fixpoint lookup (k : string) (kvs : list (string * json)) : option json :=
  match kvs with
  | [] => None
  | (k', v) :: rest => if String.eqb k k' then Some v else lookup k rest
  end.

(** [v[k]] for a string key: only a dict accepts it. *)
Definition getitem_key (v : json) (k : string) : result json :=
  match v with
  | JObj kvs =>
      match lookup k kvs with
      | Some x => Ok x
      | None => Raise KeyError
      end
  | _ => Raise TypeError
  end.

(** [v[0]]: the first element of a list, the first character of a str; a
    decoded JSON object has string keys only, so [0] is never one of them. *)
Definition getitem_0 (v : json) : result json :=
  match v with
  | JArr (x :: _) => Ok x
  | JArr [] => Raise IndexError
  | JStr (String c _) => Ok (JStr (String c EmptyString))
  | JStr EmptyString => Raise IndexError
  | JObj _ => Raise KeyError
  | _ => Raise TypeError
  end.

(** [v.get(k, d)]: a method of dict alone. *)
Definition dict_get (v : json) (k : string) (d : json) : result json :=
  match v with
  | JObj kvs =>
      match lookup k kvs with
      | Some x => Ok x
      | None => Ok d
      end
  | _ => Raise AttributeError
  end.

Fixpoint chars (s : string) : list json :=
  match s with
  | EmptyString => []
  | String c rest => JStr (String c EmptyString) :: chars rest
  end.

(** [for item in v[:5]]: the items the loop visits.  A list or a str can be
    sliced (a str yields its characters); a dict rejects the slice (with
    [TypeError], from Python 3.12 on with [KeyError]) and the other values
    cannot be subscripted.  The slice is taken outside the inner [try], so the
    class of the exception makes no difference to the caller. *)
Definition slice5 (v : json) : result (list json) :=
  match v with
  | JArr l => Ok (firstn 5 l)
  | JStr s => Ok (firstn 5 (chars s))
  | _ => Raise TypeError
  end.

(** Truth value of an optional string ([None] and [''] are false). *)
Definition truthy (s : option string) : bool :=
  match s with
  | Some (String _ _) => true
  | _ => false
  end.

(** Whitespace of [str.strip()] among the code points below 256. *)
Definition is_space (c : ascii) : bool :=
  let n := nat_of_ascii c in
  (((9 <=? n) && (n <=? 13)) || ((28 <=? n) && (n <=? 32))
   || (n =? 133) || (n =? 160))%nat%bool.

Fixpoint lstrip (s : string) : string :=
  match s with
  | String c rest => if is_space c then lstrip rest else s
  | EmptyString => EmptyString
  end.

Fixpoint rev_string (s acc : string) : string :=
  match s with
  | EmptyString => acc
  | String c rest => rev_string rest (String c acc)
  end.

Definition strip (s : string) : string :=
  rev_string (lstrip (rev_string (lstrip s) EmptyString)) EmptyString.

(** [v.strip()]: a method of str. *)
Definition str_strip (v : json) : result string :=
  match v with
  | JStr s => Ok (strip s)
  | _ => Raise AttributeError
  end.

(** [s.replace(' ', '+')]. *)
Fixpoint replace_space (s : string) : string :=
  match s with
  | EmptyString => EmptyString
  | String c rest =>
      String (if Ascii.eqb c " " then "+"%char else c) (replace_space rest)
  end.

(** ** Offers *)

(** The dict a marketplace client returns for one offer.  An optional field is
    a key that only one of the two clients writes. *)
Record Offer : Type := mkOffer {
  source : string;
  price : double;
  title : json;
  condition : json;
  url : json;
  shipping : option json;
  image : option json;
  is_search_link : option bool
}.

(** [r.get('price', 0) > 0]. *)
Definition is_priced (r : Offer) : bool := SFltb zero (price r).

(** Truth value of [r.get('is_search_link')]. *)
Definition is_link (r : Offer) : bool :=
  match is_search_link r with
  | Some b => b
  | None => false
  end.

(** [list.sort(key=...)] is stable and ascending: an element goes in front of
    the first element of the sorted rest whose key is not smaller, so before
    nothing that preceded it with an equal key. *)
Fixpoint insert_by_price (x : Offer) (l : list Offer) : list Offer :=
  match l with
  | [] => [x]
  | y :: rest =>
      if SFleb (price x) (price y) then x :: l
      else y :: insert_by_price x rest
  end.

Fixpoint sort_by_price (l : list Offer) : list Offer :=
  match l with
  | [] => []
  | x :: rest => insert_by_price x (sort_by_price rest)
  end.

(** The tail of [search_all], from the concatenated results on. *)
Definition combine_results (all_results : list Offer) : list Offer :=
  let priced_results := filter is_priced all_results in
  let search_links := filter is_link all_results in
  (sort_by_price priced_results ++ search_links)%list.

(** [min(...)] and [max(...)] over a non-empty sequence: the running value is
    replaced by a strictly smaller (greater) one. *)
Definition py_min (x : double) (xs : list double) : double :=
  fold_left (fun m y => if SFltb y m then y else m) xs x.

Definition py_max (x : double) (xs : list double) : double :=
  fold_left (fun m y => if SFltb m y then y else m) xs x.

(** The savings computed by the [search] handler: a difference of two floats,
    or the literal 0. *)
Definition savings_of (results : list Offer) : double :=
  if (1 <? List.length results)%nat then
    match map price (filter is_priced results) with
    | p :: ps => double_sub (py_max p ps) (py_min p ps)
    | [] => zero
    end
  else zero.

Inductive Remaining : Type :=
| Unlimited
| Count (n : Z).

(** The [searches_remaining] entry of the response. *)
Definition searches_remaining (u : User) : Remaining :=
  if negb (is_premium u) then Count (Z.max 0 (5 - searches_today u))
  else Unlimited.

(** ** Marketplace clients and aggregator (class [BookPriceFinder]) *)

Record BookPriceFinder : Type := mkFinder {
  ebay_api_key : option string;
  amazon_tag : option string
}.

(** [except (KeyError, IndexError, ValueError): continue]. *)
Definition skipped (e : exn) : bool :=
  match e with
  | KeyError | IndexError | ValueError => true
  | _ => false
  end.

Definition ebay_params (key : string) (search_term : string)
  : list (string * string) :=
  [ ("OPERATION-NAME", "findItemsAdvanced");
    ("SERVICE-VERSION", "1.0.0");
    ("SECURITY-APPNAME", key);
    ("RESPONSE-DATA-FORMAT", "JSON");
    ("REST-PAYLOAD", "");
    ("keywords", search_term);
    ("paginationInput.entriesPerPage", "10");
    ("itemFilter(0).name", "ListingType");
    ("itemFilter(0).value", "FixedPrice");
    ("sortOrder", "PricePlusShippingLowest") ].

(** [isbn if isbn else query]. *)
Definition search_term_of (query : string) (isbn : option string) : string :=
  match isbn with
  | Some (String c rest) => String c rest
  | _ => query
  end.

Section Service.

(** [float(s)] on a str: the number, or nothing where Python raises
    [ValueError]. *)
Variable float_of_string : string -> option double.

(** The remote marketplace: for the parameters of the GET, the decoded body
    ([response.json()]) or the exception [requests.get] or the decoding
    raises. *)
Variable requests_get : list (string * string) -> result json.

(** [float(v)]: a float is returned as it is, an int is rounded to the
    nearest float ([OverflowError] when none is in range), [True] and [False]
    are 1 and 0, a str is parsed, anything else is a [TypeError]. *)
Definition py_float (v : json) : result double :=
  match v with
  | JStr s =>
      match float_of_string s with
      | Some d => Ok d
      | None => Raise ValueError
      end
  | JFloat d => Ok d
  | JInt z =>
      match double_of_int z with
      | S754_infinity _ => Raise OverflowError
      | d => Ok d
      end
  | JBool b => Ok (double_of_int (if b then 1 else 0))
  | _ => Raise TypeError
  end.

(** [float(item['sellingStatus'][0]['currentPrice'][0]['__value__'])]. *)
Definition ebay_price (item : json) : result double :=
  a <- getitem_key item "sellingStatus" ;;
  b <- getitem_0 a ;;
  c <- getitem_key b "currentPrice" ;;
  d <- getitem_0 c ;;
  v <- getitem_key d "__value__" ;;
  py_float v.

(** The body of the inner [try]: the price, then the entries of the dict in
    the order they are written. *)
Definition ebay_offer (item : json) : result Offer :=
  p <- ebay_price item ;;
  t <- getitem_key item "title" ;;
  t0 <- getitem_0 t ;;
  c <- dict_get item "condition" (JArr [JObj []]) ;;
  c0 <- getitem_0 c ;;
  cn <- dict_get c0 "conditionDisplayName" (JArr [JStr "Used"]) ;;
  cn0 <- getitem_0 cn ;;
  u <- getitem_key item "viewItemURL" ;;
  u0 <- getitem_0 u ;;
  s <- dict_get item "shippingInfo" (JArr [JObj []]) ;;
  s0 <- getitem_0 s ;;
  sc <- dict_get s0 "shippingServiceCost" (JArr [JObj []]) ;;
  sc0 <- getitem_0 sc ;;
  sv <- dict_get sc0 "__value__" (JStr "0") ;;
  g <- dict_get item "galleryURL" (JArr [JStr ""]) ;;
  g0 <- getitem_0 g ;;
  Ok (mkOffer "eBay" p t0 cn0 u0 (Some sv) (Some g0) None).

(** The [for] loop: [results] is the list built so far.  An exception of the
    inner [except] clause skips the item; any other leaves the loop. *)
Fixpoint ebay_loop (items : list json) (results : list Offer)
  : result (list Offer) :=
  match items with
  | [] => Ok results
  | item :: rest =>
      match ebay_offer item with
      | Ok o => ebay_loop rest (results ++ [o])%list
      | Raise e => if skipped e then ebay_loop rest results else Raise e
      end
  end.

(** The outer [try] of [search_ebay]. *)
Definition ebay_try (key : string) (search_term : string)
  : result (list Offer) :=
  data <- requests_get (ebay_params key search_term) ;;
  a <- dict_get data "findItemsAdvancedResponse" (JArr [JObj []]) ;;
  a0 <- getitem_0 a ;;
  b <- dict_get a0 "searchResult" (JArr [JObj []]) ;;
  b0 <- getitem_0 b ;;
  items <- dict_get b0 "item" (JArr []) ;;
  top <- slice5 items ;;
  ebay_loop top [].

(** [BookPriceFinder.search_ebay]. *)
Definition search_ebay (f : BookPriceFinder) (query : string)
  (isbn : option string) : list Offer :=
  match ebay_api_key f with
  | Some (String c k) =>
      match ebay_try (String c k) (search_term_of query isbn) with
      | Ok results => results
      | Raise _ => []
      end
  | _ => []
  end.

(** [build_amazon_link], the closure of [search_amazon]. *)
Definition build_amazon_link (f : BookPriceFinder) (search_term : string)
  : string :=
  let base_url := "https://www.amazon.com/s" in
  let params := "?k=" ++ replace_space search_term in
  let params :=
    match amazon_tag f with
    | Some (String c t) => params ++ "&tag=" ++ String c t
    | _ => params
    end in
  base_url ++ params.

(** [BookPriceFinder.search_amazon]. *)
Definition search_amazon (f : BookPriceFinder) (query : string)
  (isbn : option string) : list Offer :=
  let search_term := search_term_of query isbn in
  [ mkOffer "Amazon" zero (JStr ("Search results for: " ++ query))
            (JStr "Various") (JStr (build_amazon_link f search_term))
            None None (Some true) ].

(** [BookPriceFinder.search_all]. *)
Definition search_all (f : BookPriceFinder) (query : string)
  (isbn : option string) : list Offer :=
  let ebay_results := search_ebay f query isbn in
  let amazon_results := search_amazon f query isbn in
  combine_results (ebay_results ++ amazon_results)%list.

(** ** The [search] handler *)

Inductive Response : Type :=
| Forbidden                      (* 403, daily limit reached *)
| BadRequest                     (* 400, neither title nor ISBN *)
| SearchOk (results : list Offer) (savings : double) (remaining : Remaining)
| ServerError (e : exn).         (* an exception left the handler *)

Definition is_empty (s : string) : bool :=
  match s with
  | EmptyString => true
  | _ => false
  end.

(** The two fields read from [request.json]. *)
Definition read_body (data : json) : result (string * string) :=
  q <- dict_get data "query" (JStr "") ;;
  query <- str_strip q ;;
  i <- dict_get data "isbn" (JStr "") ;;
  isbn <- str_strip i ;;
  Ok (query, isbn).

(** [search], for the logged-in account [u]; [t1 t2 t3] are the clock
    readings of [can_search], [t4] the one of [increment_search].  The account
    returned is the one the store holds after the request. *)
Definition search (f : BookPriceFinder) (t1 t2 t3 t4 : datetime)
  (data : json) (u : User) : Response * User :=
  match can_search t1 t2 t3 u with
  | (Raise e, u1) => (ServerError e, u1)
  | (Ok false, u1) => (Forbidden, u1)
  | (Ok true, u1) =>
      match read_body data with
      | Raise e => (ServerError e, u1)
      | Ok (query, isbn) =>
          if is_empty query && is_empty isbn then (BadRequest, u1)
          else
            let results := search_all f query (Some isbn) in
            match increment_search t4 u1 with
            | (Raise e, u2) => (ServerError e, u2)
            | (Ok _, u2) =>
                (SearchOk results (savings_of results) (searches_remaining u2),
                 u2)
            end
      end
  end.

End Service.

(** ** The account table and the handlers that write it *)

(** The rows of the [user] table, oldest first. *)
Definition Store := list User.

(** [User.query.filter_by(email=e).first()]. *)
Definition find_by_email (e : string) (s : Store) : option User :=
  find (fun u => String.eqb (email u) e) s.

(** [load_user]: [User.query.get(int(user_id))], the account of the session. *)
Definition load_user (i : Z) (s : Store) : option User :=
  find (fun u => id u =? i) s.

(** Commit of a changed row: the row with the primary key of [u'] becomes
    [u']. *)
Definition update_user (u' : User) (s : Store) : Store :=
  map (fun u => if id u =? id u' then u' else u) s.

Inductive SignupResponse : Type :=
| EmailTaken     (* 400 *)
| SignedUp.      (* success, session created *)

(** [signup] (POST).  [pw_hash] is the value of [generate_password_hash];
    [t_reset] and [t_created] are the clock readings of the two column
    defaults; the key is the next one of the table, whose rows are never
    deleted. *)
Definition signup (e pw_hash : string) (t_reset t_created : datetime)
  (s : Store) : SignupResponse * Store :=
  match find_by_email e s with
  | Some _ => (EmailTaken, s)
  | None =>
      let user :=
        mkUser (Z.of_nat (List.length s) + 1) e (Some pw_hash) false None None
               0 t_reset t_created in
      (SignedUp, (s ++ [user])%list)
  end.

(** [payment_success], on the logged-in account. *)
Definition payment_success (now : datetime) (u : User) : User :=
  set_premium_expires (set_is_premium u true) (Some (add_days now 30)).

(** What [stripe.Webhook.construct_event] does with the request. *)
Inductive WebhookInput : Type :=
| PayloadInvalid      (* ValueError *)
| SignatureInvalid    (* SignatureVerificationError *)
| Verified (event : json).

Definition cancelled_type : string := "customer.subscription.deleted".

(** [v == 'customer.subscription.deleted']. *)
Definition is_cancelled (v : json) : bool :=
  match v with
  | JStr s => String.eqb s cancelled_type
  | _ => false
  end.

(** The lookup of the account named by the event,
    [filter_by(email=v).first()]: a str is compared with the stored emails
    and [None] matches no row; the other values, which the database would
    compare by their text, are taken to match no row either. *)
Definition find_by_email_value (v : json) (s : Store) : option User :=
  match v with
  | JStr e => find_by_email e s
  | _ => None
  end.

(** [stripe_webhook]: the status of the response (or the exception that
    leaves the handler) and the table afterwards. *)
Definition stripe_webhook (input : WebhookInput) (s : Store)
  : result Z * Store :=
  match input with
  | PayloadInvalid => (Ok 400, s)
  | SignatureInvalid => (Ok 400, s)
  | Verified event =>
      match getitem_key event "type" with
      | Raise e => (Raise e, s)
      | Ok ty =>
          if is_cancelled ty then
            match (d <- getitem_key event "data" ;;
                   o <- getitem_key d "object" ;;
                   getitem_key o "customer_email") with
            | Raise e => (Raise e, s)
            | Ok customer_email =>
                match find_by_email_value customer_email s with
                | Some user => (Ok 200, update_user (set_is_premium user false) s)
                | None => (Ok 200, s)
                end
            end
          else (Ok 200, s)
      end
  end.

(** An instance of [float_of_string] for the plain decimal numerals [ddd] and
    [ddd.ddd] of at most 15 digits and for [inf].  On such a numeral the two
    integers are floats themselves and their rounded quotient is the float
    nearest to the numeral, which is what [float] returns; it runs the model
    on concrete responses. *)
Definition digit_of (c : ascii) : option Z :=
  let n := nat_of_ascii c in
  if ((48 <=? n) && (n <=? 57))%nat then Some (Z.of_nat (n - 48)) else None.

Fixpoint parse_fraction (s : string) (num den : Z) : option double :=
  match s with
  | EmptyString => Some (double_div (double_of_int num) (double_of_int den))
  | String c rest =>
      match digit_of c with
      | Some d => parse_fraction rest (10 * num + d) (10 * den)
      | None => None
      end
  end.

Fixpoint parse_decimal (s : string) (num : Z) (seen : bool) : option double :=
  match s with
  | EmptyString => if seen then Some (double_of_int num) else None
  | String c rest =>
      if Ascii.eqb c "." then
        if seen then parse_fraction rest num 1 else None
      else
        match digit_of c with
        | Some d => parse_decimal rest (10 * num + d) true
        | None => None
        end
  end.

Definition float_of_decimal (s : string) : option double :=
  if String.eqb s "inf" then Some infinity else parse_decimal s 0 false.

Section App.

Variable float_of_string : string -> option double.
Variable requests_get : list (string * string) -> result json.

(** The process-wide configuration read from the environment. *)
Variable finder : BookPriceFinder.

(** A request that reaches a handler.  [uid] is the account of the session;
    a handler under [login_required] runs only when that account exists. *)
Inductive Request : Type :=
| ReqSignup (e pw_hash : string) (t_reset t_created : datetime)
| ReqSearch (uid : Z) (t1 t2 t3 t4 : datetime) (data : json)
| ReqPaymentSuccess (uid : Z) (now : datetime)
| ReqWebhook (input : WebhookInput)
| ReqReadOnly.   (* index, login, logout, checkout session, dashboard *)

Definition handle (r : Request) (s : Store) : Store :=
  match r with
  | ReqSignup e h t_reset t_created => snd (signup e h t_reset t_created s)
  | ReqSearch uid t1 t2 t3 t4 data =>
      match load_user uid s with
      | Some u =>
          update_user
            (snd (search float_of_string requests_get finder t1 t2 t3 t4 data u))
            s
      | None => s
      end
  | ReqPaymentSuccess uid now =>
      match load_user uid s with
      | Some u => update_user (payment_success now u) s
      | None => s
      end
  | ReqWebhook input => snd (stripe_webhook input s)
  | ReqReadOnly => s
  end.

(** The tables the application can hold: from the empty table
    ([db.create_all()]) by handled requests. *)
Inductive reachable : Store -> Prop :=
| reach_empty : reachable []
| reach_handle (r : Request) (s : Store) :
    reachable s -> reachable (handle r s).

End App.

(** ** Predicates of the statements and sample data *)

(** [sub in s] for two strings. *)
Fixpoint contains (sub s : string) : bool :=
  match s with
  | EmptyString => is_empty sub
  | String _ rest => String.prefix sub s || contains sub rest
  end.

(** An account whose subscription has lapsed: flag still set, expiry at
    microsecond 100. *)
Definition lapsed_user : User :=
  mkUser 1 "reader@example.org" (Some "hash") true None (Some 100) 0 0 0.

(** A float other than nan. *)
Definition not_nan (x : double) : bool :=
  match x with
  | S754_nan => false
  | _ => true
  end.

(** A float that is neither an infinity nor nan. *)
Definition is_finite (x : double) : bool :=
  match x with
  | S754_zero _ | S754_finite _ _ _ => true
  | _ => false
  end.

(** What the savings of a response are, over the priced offers of its
    results: 0 without a priced offer; otherwise the float difference of the
    greatest and the least price, which is 0 for one offer of finite price
    and nan for one offer of infinite price. *)
Definition savings_spec (results : list Offer) (savings : double) : Prop :=
  match map price (filter is_priced results) with
  | [] => savings = zero
  | p :: ps =>
      exists mx mn,
        In mx (p :: ps) /\ In mn (p :: ps) /\
        (forall x, In x (p :: ps) ->
                   SFleb mn x = true /\ SFleb x mx = true) /\
        savings = double_sub mx mn /\
        (ps = [] -> is_finite p = true -> savings = zero) /\
        (ps = [] -> is_finite p = false -> savings = S754_nan)
  end.

(** Order of two offers by price, and the offers of one price. *)
Definition price_le (a b : Offer) : Prop :=
  SFleb (price a) (price b) = true.

Definition has_price (p : double) (o : Offer) : bool := SFeqb (price o) p.

(** The shape of a listing and of a response of the finding service. *)
Definition listing (price_value : json) (name link : string) : json :=
  JObj [ ("sellingStatus",
          JArr [JObj [("currentPrice",
                       JArr [JObj [("__value__", price_value)]])]]);
         ("title", JArr [JStr name]);
         ("viewItemURL", JArr [JStr link]) ].

Definition ebay_response (items : list json) : json :=
  JObj [ ("findItemsAdvancedResponse",
          JArr [JObj [("searchResult", JArr [JObj [("item", JArr items)]])]]) ].

(** The float of a decimal numeral. *)
Definition decimal (s : string) : double :=
  match float_of_decimal s with
  | Some d => d
  | None => zero
  end.

(** A free account, an exhausted one, and the table that holds them. *)
Definition free_user : User :=
  mkUser 1 "reader@example.org" (Some "hash") false None None 2 0 0.

Definition exhausted_user : User :=
  mkUser 2 "student@example.org" (Some "hash") false None None 5 0 0.

Definition subscriber : User :=
  mkUser 3 "member@example.org" (Some "hash") true None
         (Some (add_days 0 30)) 7 0 0.

Definition sample_store : Store := [free_user; exhausted_user; subscriber].

(** A configuration with a marketplace key and no affiliate tag, three
    listings, and two remote services: one that answers with given listings
    and one whose request fails. *)
Definition sample_finder : BookPriceFinder := mkFinder (Some "app-key") None.

Definition sample_items : list json :=
  [ listing (JStr "12.00") "Calculus, 8th ed." "https://ebay.example/1";
    listing (JStr "8.50") "Calculus, 7th ed." "https://ebay.example/2";
    listing (JStr "20.00") "Calculus, new" "https://ebay.example/3" ].

Definition service_of (items : list json)
  : list (string * string) -> result json :=
  fun _ => Ok (ebay_response items).

Definition failing_service : list (string * string) -> result json :=
  fun _ => Raise RequestException.

Definition sample_body : json := JObj [("query", JStr " Calculus ")].

(** A cancellation event naming the account of email [e]. *)
Definition cancel_event (e : string) : json :=
  JObj [ ("type", JStr cancelled_type);
         ("data", JObj [("object", JObj [("customer_email", JStr e)])]) ].

(** A string of whitespace only (the empty one included). *)
Fixpoint all_space (s : string) : bool :=
  match s with
  | EmptyString => true
  | String c rest => is_space c && all_space rest
  end.

(** A request of the session of one account: the four clock readings and the
    body. *)
Definition SearchCall : Type :=
  (datetime * datetime * datetime * datetime * json)%type.

(** What every reachable table satisfies: keys numbered in order of creation,
    distinct emails, counters that are not negative. *)
Definition store_wf (s : Store) : Prop :=
  map id s = map Z.of_nat (seq 1 (List.length s)) /\
  NoDup (map email s) /\
  Forall (fun u => 0 <= searches_today u) s.

(** The table after one signup and the payment of that account. *)
Definition grown_store : Store :=
  handle float_of_decimal failing_service sample_finder
    (ReqPaymentSuccess 1 0)
    (handle float_of_decimal failing_service sample_finder
       (ReqSignup "reader@example.org" "hash" 0 0) []).

Local Open Scope list_scope.

(** * Quota policy *)

Lemma premium_active_wf (u : User) (now : datetime) :
  premium_wf u ->
  premium_active u now =
  Ok (is_premium u &&
      match premium_expires u with Some e => now <? e | None => false end).
Proof.
  unfold premium_wf, premium_active. intros Hwf.
  destruct (is_premium u); [| reflexivity].
  destruct (premium_expires u) as [e|]; [reflexivity|].
  exfalso. now apply Hwf.
Qed.

Lemma reset_if_new_day_premium (t1 t2 : datetime) (u : User) :
  is_premium (reset_if_new_day t1 t2 u) = is_premium u /\
  premium_expires (reset_if_new_day t1 t2 u) = premium_expires u.
Proof.
  unfold reset_if_new_day.
  destruct (date (last_search_reset u) <? date t1); split; reflexivity.
Qed.

Lemma reset_if_new_day_wf (t1 t2 : datetime) (u : User) :
  premium_wf u -> premium_wf (reset_if_new_day t1 t2 u).
Proof.
  unfold premium_wf.
  destruct (reset_if_new_day_premium t1 t2 u) as [-> ->]. auto.
Qed.

Lemma reset_if_new_day_counter (t1 t2 : datetime) (u : User) :
  searches_today (reset_if_new_day t1 t2 u) =
  if date (last_search_reset u) <? date t1 then 0 else searches_today u.
Proof.
  unfold reset_if_new_day.
  destruct (date (last_search_reset u) <? date t1); reflexivity.
Qed.

(** C1. [can_search] answers true for an account whose premium flag is set and
    whose expiry is strictly after the clock reading of the premium test,
    whatever its counter; for every other stored account (flag unset, or
    expiry not after that reading) it answers true exactly when the counter it
    compares, the one left by the day check, is below 5: that is, when a new
    day has begun or the counter it had was below 5. *)
Theorem can_search_answer (t1 t2 t3 : datetime) (u : User) :
  premium_wf u ->
  let active :=
    is_premium u = true /\
    exists e, premium_expires u = Some e /\ t3 < e in
  let u' := snd (can_search t1 t2 t3 u) in
  (active -> fst (can_search t1 t2 t3 u) = Ok true) /\
  (~ active ->
   exists b, fst (can_search t1 t2 t3 u) = Ok b /\
     (b = true <-> searches_today u' < 5) /\
     (b = true <->
      date (last_search_reset u) < date t1 \/ searches_today u < 5)).
Proof.
  intros Hwf active u'. subst active u'. unfold can_search. cbn [fst snd].
  rewrite (premium_active_wf _ t3 (reset_if_new_day_wf t1 t2 u Hwf)).
  destruct (reset_if_new_day_premium t1 t2 u) as [-> ->].
  rewrite reset_if_new_day_counter. cbn [bind].
  split.
  - intros [Hp [e [He Hlt]]]. rewrite Hp, He. cbn.
    apply Z.ltb_lt in Hlt. now rewrite Hlt.
  - intros Hna.
    assert (Hf : is_premium u &&
                 match premium_expires u with
                 | Some e => t3 <? e
                 | None => false
                 end = false).
    { destruct (is_premium u) eqn:Hp; [| reflexivity].
      destruct (premium_expires u) as [e|] eqn:He; [| reflexivity].
      cbn. apply Z.ltb_ge. destruct (Z.lt_ge_cases t3 e) as [Hlt|Hge]; [| exact Hge].
      exfalso. apply Hna. split; [reflexivity|]. now exists e. }
    rewrite Hf. eexists. split; [reflexivity|].
    destruct (date (last_search_reset u) <? date t1) eqn:Hd.
    + apply Z.ltb_lt in Hd. cbn. split; split; intros; auto; lia.
    + apply Z.ltb_ge in Hd. rewrite Z.ltb_lt. split; [tauto|].
      split; [auto|]. intros [H|H]; [lia | exact H].
Qed.

(** C2. [can_search] zeroes the counter and stores the clock reading in
    [last_search_reset] when the day of [last_search_reset] is strictly before
    the current day, and leaves the whole account as it was otherwise (equal
    days included); neither the old counter nor the premium fields take part,
    and the account is written this way even when the premium test raises. *)
Theorem can_search_day_reset (t1 t2 t3 : datetime) (u : User) :
  let u' := snd (can_search t1 t2 t3 u) in
  (date (last_search_reset u) < date t1 ->
   searches_today u' = 0 /\ last_search_reset u' = t2 /\
   u' = set_last_search_reset (set_searches_today u 0) t2) /\
  (date (last_search_reset u) = date t1 -> u' = u) /\
  (~ date (last_search_reset u) < date t1 -> u' = u).
Proof.
  cbn [can_search snd]. unfold reset_if_new_day.
  destruct (date (last_search_reset u) <? date t1) eqn:Hd.
  - apply Z.ltb_lt in Hd.
    split; [intros _; repeat split |]. split; intros; lia.
  - apply Z.ltb_ge in Hd.
    split; [intros; lia |]. split; reflexivity.
Qed.

(** [increment_search] on a stored account: one more on the counter unless
    the premium test holds. *)
Lemma increment_search_wf (t : datetime) (u : User) :
  premium_wf u ->
  fst (increment_search t u) = Ok tt /\
  premium_wf (snd (increment_search t u)).
Proof.
  intros Hwf. unfold increment_search.
  rewrite (premium_active_wf _ t Hwf).
  destruct (negb _); cbn; split; auto.
Qed.

Section Handler.

Variable float_of_string : string -> option double.
Variable requests_get : list (string * string) -> result json.
Variable f : BookPriceFinder.

Local Abbreviation search := (search float_of_string requests_get f).

(** C8. When [search] answers 403 the account is exactly as before the
    request: the counter was not incremented, and the day check did not reset
    it (a reset would have left a counter of 0 and a successful check). *)
Theorem search_forbidden_no_mutation (t1 t2 t3 t4 : datetime) (data : json)
  (u : User) :
  fst (search t1 t2 t3 t4 data u) = Forbidden ->
  snd (search t1 t2 t3 t4 data u) = u /\
  searches_today (snd (search t1 t2 t3 t4 data u)) = searches_today u /\
  last_search_reset (snd (search t1 t2 t3 t4 data u)) = last_search_reset u /\
  ~ date (last_search_reset u) < date t1.
Proof.
  unfold search, can_search.
  destruct (premium_active (reset_if_new_day t1 t2 u) t3) as [[|]|e] eqn:Ha;
    cbn [bind].
  - destruct (read_body data) as [[q i]|e]; [| discriminate].
    destruct (is_empty q && is_empty i); [discriminate|].
    destruct (increment_search t4 _) as [[[]|e] u2]; discriminate.
  - destruct (searches_today (reset_if_new_day t1 t2 u) <? 5) eqn:Hc.
    + destruct (read_body data) as [[q i]|e]; [| discriminate].
      destruct (is_empty q && is_empty i); [discriminate|].
      destruct (increment_search t4 _) as [[[]|e] u2]; discriminate.
    + intros _. cbn [snd].
      rewrite reset_if_new_day_counter in Hc.
      unfold reset_if_new_day.
      destruct (date (last_search_reset u) <? date t1) eqn:Hd;
        [discriminate Hc|].
      apply Z.ltb_ge in Hd. repeat split; try reflexivity. lia.
  - discriminate.
Qed.

(** What the handler reports as remaining quota follows the premium flag
    alone. *)
Lemma search_remaining_follows_flag (t1 t2 t3 t4 : datetime) (data : json)
  (u : User) (results : list Offer) (savings : double) (rem : Remaining) :
  fst (search t1 t2 t3 t4 data u) = SearchOk results savings rem ->
  let u' := snd (search t1 t2 t3 t4 data u) in
  is_premium u' = is_premium u /\
  rem = if is_premium u then Unlimited
        else Count (Z.max 0 (5 - searches_today u')).
Proof.
  unfold search, can_search. cbn [fst snd].
  destruct (active <- premium_active (reset_if_new_day t1 t2 u) t3 ;;
            (if active then Ok true
             else Ok (searches_today (reset_if_new_day t1 t2 u) <? 5)))
    as [[|]|e]; try discriminate.
  destruct (read_body data) as [[q i]|e]; [| discriminate].
  destruct (is_empty q && is_empty i); [discriminate|].
  unfold increment_search.
  destruct (premium_active (reset_if_new_day t1 t2 u) t4) as [a|e];
    [| discriminate].
  destruct (reset_if_new_day_premium t1 t2 u) as [Hp _].
  destruct (negb a); cbn [fst snd]; intros H; injection H as _ _ <-;
    unfold searches_remaining; cbn [is_premium set_searches_today];
    rewrite Hp; destruct (is_premium u); split; reflexivity.
Qed.

(** C7. On the lapsed account, at a clock reading of 200, the premium test is
    false and the request is charged (the counter goes from 0 to 1, so 4
    searches remain), yet the response carries the unlimited sentinel. *)
Theorem search_remaining_lapsed_premium :
  let data := JObj [("query", JStr "Calculus")] in
  premium_active lapsed_user 200 = Ok false /\
  searches_today (snd (search 200 200 200 200 data lapsed_user)) = 1 /\
  exists results savings,
    fst (search 200 200 200 200 data lapsed_user) =
    SearchOk results savings Unlimited.
Proof.
  cbn. repeat split. eexists. eexists. reflexivity.
Qed.

End Handler.

(** * Account table *)

Lemma load_user_In (i : Z) (s : Store) (u : User) :
  load_user i s = Some u -> In u s /\ id u = i.
Proof.
  unfold load_user. intros H. apply find_some in H as [Hin Hid].
  split; [exact Hin | now apply Z.eqb_eq].
Qed.

Lemma find_by_email_In (e : string) (s : Store) (u : User) :
  find_by_email e s = Some u -> In u s /\ email u = e.
Proof.
  unfold find_by_email. intros H. apply find_some in H as [Hin He].
  split; [exact Hin | now apply String.eqb_eq].
Qed.

Lemma update_user_Forall (P : User -> Prop) (u' : User) (s : Store) :
  P u' -> Forall P s -> Forall P (update_user u' s).
Proof.
  intros Hu Hs. unfold update_user. apply Forall_map.
  eapply Forall_impl; [| exact Hs]. intros v Hv. cbn.
  destruct (id v =? id u'); assumption.
Qed.

Lemma update_user_ids (u' : User) (s : Store) :
  map id (update_user u' s) = map id s.
Proof.
  unfold update_user. rewrite map_map. apply map_ext_in. intros v _.
  destruct (id v =? id u') eqn:E; [| reflexivity].
  apply Z.eqb_eq in E. now symmetry.
Qed.

(** With unique keys, the commit of a row changes that row and no other. *)
Lemma update_user_split (u u' : User) (s : Store) :
  NoDup (map id s) -> In u s -> id u' = id u ->
  exists before after,
    s = (before ++ u :: after)%list /\
    update_user u' s = (before ++ u' :: after)%list.
Proof.
  intros Hnd Hin Hid. apply in_split in Hin as [l1 [l2 ->]].
  exists l1, l2. split; [reflexivity|].
  rewrite map_app in Hnd. cbn in Hnd.
  pose proof (NoDup_remove_2 _ _ _ Hnd) as Hnot.
  assert (Hfix : forall l, (forall v, In v l -> id v <> id u) ->
                           update_user u' l = l).
  { unfold update_user.
    induction l as [|v l IH]; intros Hl; [reflexivity|]. cbn [map].
    rewrite IH by (intros w Hw; apply Hl; now right).
    destruct (id v =? id u') eqn:E; [| reflexivity].
    apply Z.eqb_eq in E. exfalso. apply (Hl v); [now left | congruence]. }
  assert (Happ : update_user u' (l1 ++ u :: l2) =
                 (update_user u' l1 ++ u' :: update_user u' l2)%list).
  { unfold update_user. rewrite map_app. cbn [map].
    now rewrite Hid, Z.eqb_refl. }
  rewrite Happ.
  rewrite !Hfix; [reflexivity | |];
    intros v Hv Heq; apply Hnot; apply in_or_app;
    [right | left]; rewrite <- Heq; now apply in_map.
Qed.

(** C9. On a verified event of type [customer.subscription.deleted] whose
    embedded email is that of a stored account, the webhook answers 200 and
    the table differs in that one row only, where the premium flag is false
    and the expiry, the counters and every other field are as before; on a
    verified event of any other type it answers 200 and the table is
    unchanged. *)
Theorem webhook_cancellation_frame (s : Store) (event : json) :
  NoDup (map id s) ->
  (forall (e : string) (u : User),
     getitem_key event "type" = Ok (JStr cancelled_type) ->
     (d <- getitem_key event "data" ;;
      o <- getitem_key d "object" ;;
      getitem_key o "customer_email") = Ok (JStr e) ->
     find_by_email e s = Some u ->
     exists before after,
       s = (before ++ u :: after)%list /\
       stripe_webhook (Verified event) s =
       (Ok 200,
        (before ++
         mkUser (id u) (email u) (password_hash u) false
                (stripe_customer_id u) (premium_expires u) (searches_today u)
                (last_search_reset u) (created_at u) :: after)%list)) /\
  (forall ty : json,
     getitem_key event "type" = Ok ty ->
     ty <> JStr cancelled_type ->
     stripe_webhook (Verified event) s = (Ok 200, s)).
Proof.
  intros Hnd. split.
  - intros e u Hty Hmail Hfind. unfold stripe_webhook.
    rewrite Hty. cbn [is_cancelled]. rewrite String.eqb_refl.
    rewrite Hmail. cbn [find_by_email_value]. rewrite Hfind.
    apply find_by_email_In in Hfind as [Hin _].
    destruct (update_user_split u (set_is_premium u false) s Hnd Hin eq_refl)
      as [l1 [l2 [Hs Hup]]].
    exists l1, l2. split; [exact Hs|]. now rewrite Hup.
  - intros ty Hty Hne. unfold stripe_webhook. rewrite Hty.
    destruct ty as [| b | z | d | t | l | kvs]; try reflexivity.
    cbn [is_cancelled]. destruct (String.eqb t cancelled_type) eqn:E;
      [| reflexivity].
    apply String.eqb_eq in E. subst t. now contradiction Hne.
Qed.

(** The three writers of the premium fields. *)
Lemma signup_not_premium (e h : string) (t1 t2 : datetime) (s : Store) :
  Forall premium_wf s -> Forall premium_wf (snd (signup e h t1 t2 s)).
Proof.
  intros Hs. unfold signup. destruct (find_by_email e s); [exact Hs|].
  cbn [snd]. apply Forall_app. split; [exact Hs|].
  constructor; [| constructor]. intros Hp. discriminate Hp.
Qed.

Lemma payment_success_wf (now : datetime) (u : User) :
  is_premium (payment_success now u) = true /\
  premium_expires (payment_success now u) = Some (add_days now 30) /\
  premium_wf (payment_success now u).
Proof.
  repeat split. intros _. discriminate.
Qed.

Lemma stripe_webhook_wf (input : WebhookInput) (s : Store) :
  Forall premium_wf s -> Forall premium_wf (snd (stripe_webhook input s)).
Proof.
  intros Hs. unfold stripe_webhook.
  destruct input as [| | event]; try exact Hs.
  destruct (getitem_key event "type") as [ty|e]; [| exact Hs].
  destruct (is_cancelled ty); [| exact Hs].
  destruct (d <- getitem_key event "data" ;; _) as [ce|e]; [| exact Hs].
  destruct (find_by_email_value ce s) as [user|]; [| exact Hs].
  cbn [snd]. apply update_user_Forall; [| exact Hs].
  intros Hp. discriminate Hp.
Qed.

Section Reachable.

Variable float_of_string : string -> option double.
Variable requests_get : list (string * string) -> result json.
Variable finder : BookPriceFinder.

Lemma search_wf (t1 t2 t3 t4 : datetime) (data : json) (u : User) :
  premium_wf u ->
  premium_wf
    (snd (search float_of_string requests_get finder t1 t2 t3 t4 data u)).
Proof.
  intros Hwf. pose proof (reset_if_new_day_wf t1 t2 u Hwf) as H1.
  unfold search, can_search.
  destruct (active <- premium_active (reset_if_new_day t1 t2 u) t3 ;; _)
    as [[|]|e]; try exact H1.
  destruct (read_body data) as [[q i]|e]; [| exact H1].
  destruct (is_empty q && is_empty i); [exact H1|].
  pose proof (increment_search_wf t4 _ H1) as [_ H2].
  destruct (increment_search t4 (reset_if_new_day t1 t2 u)) as [[[]|e] u2];
    exact H2.
Qed.

Lemma handle_wf (r : Request) (s : Store) :
  Forall premium_wf s ->
  Forall premium_wf (handle float_of_string requests_get finder r s).
Proof.
  intros Hs. destruct r as [e h t1 t2 | uid t1 t2 t3 t4 data | uid now | input |];
    cbn [handle].
  - now apply signup_not_premium.
  - destruct (load_user uid s) as [u|] eqn:Hf; [| exact Hs].
    apply update_user_Forall; [| exact Hs]. apply search_wf.
    apply load_user_In in Hf as [Hin _].
    rewrite Forall_forall in Hs. now apply Hs.
  - destruct (load_user uid s) as [u|]; [| exact Hs].
    apply update_user_Forall; [| exact Hs]. apply payment_success_wf.
  - now apply stripe_webhook_wf.
  - exact Hs.
Qed.

(** Primary keys: the rows of a reachable table are numbered from 1 in the
    order of their creation, so no key occurs twice. *)
Lemma update_user_length (u' : User) (s : Store) :
  List.length (update_user u' s) = List.length s.
Proof. unfold update_user. apply length_map. Qed.

Lemma stripe_webhook_ids (input : WebhookInput) (s : Store) :
  map id (snd (stripe_webhook input s)) = map id s /\
  List.length (snd (stripe_webhook input s)) = List.length s.
Proof.
  unfold stripe_webhook.
  destruct input as [| | event]; try (split; reflexivity).
  destruct (getitem_key event "type") as [ty|e]; [| split; reflexivity].
  destruct (is_cancelled ty); [| split; reflexivity].
  destruct (d <- getitem_key event "data" ;; _) as [ce|e];
    [| split; reflexivity].
  destruct (find_by_email_value ce s) as [user|]; [| split; reflexivity].
  cbn [snd]. split; [apply update_user_ids | apply update_user_length].
Qed.

Lemma handle_ids (r : Request) (s : Store) :
  map id s = map Z.of_nat (seq 1 (List.length s)) ->
  map id (handle float_of_string requests_get finder r s) =
  map Z.of_nat
      (seq 1 (List.length (handle float_of_string requests_get finder r s))).
Proof.
  intros Hs. destruct r as [e h t1 t2 | uid t1 t2 t3 t4 data | uid now | input |];
    cbn [handle].
  - unfold signup. destruct (find_by_email e s); [exact Hs|]. cbn [snd].
    rewrite map_app, length_app, Nat.add_1_r, seq_S, map_app, Hs.
    cbn [map List.length id]. do 2 f_equal. lia.
  - destruct (load_user uid s); [| exact Hs].
    now rewrite update_user_ids, update_user_length.
  - destruct (load_user uid s); [| exact Hs].
    now rewrite update_user_ids, update_user_length.
  - destruct (stripe_webhook_ids input s) as [-> ->]. exact Hs.
  - exact Hs.
Qed.

Lemma reachable_ids_unique (s : Store) :
  reachable float_of_string requests_get finder s -> NoDup (map id s).
Proof.
  intros Hreach.
  assert (H : map id s = map Z.of_nat (seq 1 (List.length s))).
  { induction Hreach as [| r s Hr IH]; [reflexivity|].
    now apply handle_ids. }
  rewrite H. apply Injective_map_NoDup; [| apply seq_NoDup].
  intros a b Hab. now apply Nat2Z.inj.
Qed.

(** C10. In every table the application can reach, each account with the
    premium flag set has an expiry; on such an account [can_search] returns a
    boolean and [increment_search] returns, at every clock reading: neither
    raises. *)
Theorem reachable_accounts_never_raise (s : Store) (u : User) :
  reachable float_of_string requests_get finder s ->
  In u s ->
  premium_wf u /\
  (forall t1 t2 t3, exists b, fst (can_search t1 t2 t3 u) = Ok b) /\
  (forall t, fst (increment_search t u) = Ok tt).
Proof.
  intros Hreach.
  assert (Hall : Forall premium_wf s).
  { induction Hreach as [| r s Hr IH]; [constructor|].
    apply handle_wf. exact IH. }
  intros Hin.
  rewrite Forall_forall in Hall. pose proof (Hall u Hin) as Hwf.
  split; [exact Hwf|]. split.
  - intros t1 t2 t3. unfold can_search. cbn [fst].
    rewrite (premium_active_wf _ t3 (reset_if_new_day_wf t1 t2 u Hwf)).
    cbn [bind]. destruct (_ && _); eexists; reflexivity.
  - intros t. now apply increment_search_wf.
Qed.

End Reachable.

(** * Retail client *)

Lemma append_empty_r (a : string) : (a ++ "")%string = a.
Proof.
  induction a as [|x a IH]; cbn; [reflexivity | now rewrite IH].
Qed.

Lemma replace_space_get (s : string) (n : nat) :
  String.get n (replace_space s) =
  option_map (fun c => if Ascii.eqb c " " then "+"%char else c)
             (String.get n s).
Proof.
  revert n. induction s as [|c s IH]; intros n; cbn; [reflexivity|].
  destruct n as [|n]; [reflexivity | apply IH].
Qed.

Lemma replace_space_no_space (s : string) :
  contains " " (replace_space s) = false.
Proof.
  induction s as [|c s IH]; [reflexivity|].
  cbn [replace_space contains]. rewrite IH, orb_false_r.
  cbn [String.prefix].
  destruct (Ascii.eqb c " ") eqn:E.
  - reflexivity.
  - destruct (ascii_dec " " c) as [Heq|Hne]; [| reflexivity].
    subst c. discriminate E.
Qed.

Lemma contains_app_r (sub a b : string) :
  contains sub b = true -> contains sub (a ++ b)%string = true.
Proof.
  intros H. induction a as [|c a IH]; [exact H|].
  cbn [append contains]. rewrite IH. apply orb_true_r.
Qed.

Lemma build_amazon_link_shape (f : BookPriceFinder) (term : string) :
  build_amazon_link f term =
  ("https://www.amazon.com/s?k=" ++ replace_space term ++
   match amazon_tag f with
   | Some (String c t) => "&tag=" ++ String c t
   | _ => EmptyString
   end)%string.
Proof.
  unfold build_amazon_link.
  destruct (amazon_tag f) as [[|c t]|]; cbn;
    rewrite ?append_empty_r; reflexivity.
Qed.

(** Where [tag=] can come from: the configured tag or the embedded term. *)
Lemma build_amazon_link_tag (f : BookPriceFinder) (term : string) :
  contains "tag=" (build_amazon_link f term) =
  truthy (amazon_tag f) || contains "tag=" (replace_space term).
Proof.
  unfold build_amazon_link.
  destruct (amazon_tag f) as [[|c t]|]; cbn [truthy orb].
  - vm_compute. reflexivity.
  - apply contains_app_r. apply contains_app_r. reflexivity.
  - vm_compute. reflexivity.
Qed.

(** C6. [search_amazon] returns one offer: price 0, search-link flag set,
    title the text "Search results for: " followed by the query, and URL the
    search path with [k=] the ISBN when one is given and the query otherwise,
    every space turned into [+] and every other character left as it is,
    followed by [&tag=<tag>] when a tag is configured and by nothing when none
    is.  So the URL contains [tag=] exactly when a tag is configured or the
    embedded term itself contains it.  For the query "Calculus Early
    Transcendentals" without tag the URL contains
    [k=Calculus+Early+Transcendentals] and no [tag=]. *)
Theorem search_amazon_single_link (f : BookPriceFinder) (query : string)
  (isbn : option string) :
  let term :=
    match isbn with
    | Some (String c rest) => String c rest
    | _ => query
    end in
  let tag_parameter :=
    match amazon_tag f with
    | Some (String c t) => ("&tag=" ++ String c t)%string
    | _ => EmptyString
    end in
  (exists o link,
     search_amazon f query isbn = [o] /\
     price o = zero /\
     is_search_link o = Some true /\
     title o = JStr ("Search results for: " ++ query)%string /\
     url o = JStr link /\
     link = ("https://www.amazon.com/s?k=" ++ replace_space term
             ++ tag_parameter)%string /\
     contains "tag=" link =
     truthy (amazon_tag f) || contains "tag=" (replace_space term)) /\
  contains " " (replace_space term) = false /\
  String.length (replace_space term) = String.length term /\
  (forall n,
     String.get n (replace_space term) =
     option_map (fun c => if Ascii.eqb c " " then "+"%char else c)
                (String.get n term)) /\
  (exists link,
     map url (search_amazon (mkFinder (ebay_api_key f) None)
                            "Calculus Early Transcendentals" None) =
     [JStr link] /\
     contains "k=Calculus+Early+Transcendentals" link = true /\
     contains "tag=" link = false).
Proof.
  intros term tag_parameter.
  split; [| split; [| split; [| split]]].
  - eexists. eexists. split; [reflexivity|].
    cbn [price is_search_link title url].
    split; [reflexivity|]. split; [reflexivity|]. split; [reflexivity|].
    split; [reflexivity|]. fold term.
    split; [apply build_amazon_link_shape | apply build_amazon_link_tag].
  - apply replace_space_no_space.
  - clear. induction term as [|c s IH]; cbn; [reflexivity | now rewrite IH].
  - apply replace_space_get.
  - eexists. split; [reflexivity|]. split; vm_compute; reflexivity.
Qed.

(** * Aggregator *)

(** ** The order of floats *)

Ltac compare_cases :=
  repeat match goal with
         | |- context [Z.compare ?a ?b] =>
             destruct (Z.compare_spec a b)
         | H : context [Z.compare ?a ?b] |- _ =>
             destruct (Z.compare_spec a b)
         | |- context [Pos.compare_cont Eq ?a ?b] =>
             change (Pos.compare_cont Eq a b) with (Pos.compare a b);
             destruct (Pos.compare_spec a b)
         | H : context [Pos.compare_cont Eq ?a ?b] |- _ =>
             change (Pos.compare_cont Eq a b) with (Pos.compare a b) in H;
             destruct (Pos.compare_spec a b)
         end.

Ltac float_cases :=
  try (intros; (reflexivity || discriminate));
  compare_cases; cbn; intros;
  try reflexivity; try discriminate; subst; try lia.

Lemma SFleb_trans (x y z : double) :
  SFleb x y = true -> SFleb y z = true -> SFleb x z = true.
Proof.
  unfold SFleb, SFcompare.
  destruct x as [[]|[]| |[] m1 e1]; destruct y as [[]|[]| |[] m2 e2];
    destruct z as [[]|[]| |[] m3 e3]; float_cases.
Qed.

Lemma SFleb_total (x y : double) :
  not_nan x = true -> not_nan y = true ->
  SFleb x y = false -> SFleb y x = true.
Proof.
  unfold SFleb, SFcompare.
  destruct x as [[]|[]| |[] m1 e1]; destruct y as [[]|[]| |[] m2 e2];
    float_cases.
Qed.

Lemma SFltb_false_leb (x y : double) :
  not_nan x = true -> not_nan y = true ->
  SFltb x y = false -> SFleb y x = true.
Proof.
  unfold SFltb, SFleb, SFcompare.
  destruct x as [[]|[]| |[] m1 e1]; destruct y as [[]|[]| |[] m2 e2];
    float_cases.
Qed.

Lemma SFltb_leb (x y : double) : SFltb x y = true -> SFleb x y = true.
Proof.
  unfold SFltb, SFleb. destruct (SFcompare x y) as [[]|]; easy.
Qed.

Lemma SFleb_refl (x : double) : not_nan x = true -> SFleb x x = true.
Proof.
  unfold SFleb, SFcompare. destruct x as [[]|[]| |[] m e]; float_cases.
Qed.

Lemma SFeqb_leb (x y p : double) :
  SFeqb x p = true -> SFeqb y p = true -> SFleb x y = true.
Proof.
  unfold SFeqb, SFleb, SFcompare.
  destruct x as [[]|[]| |[] m1 e1]; destruct y as [[]|[]| |[] m2 e2];
    destruct p as [[]|[]| |[] m3 e3]; float_cases.
Qed.

(** A price above 0 is not nan. *)
Lemma positive_not_nan (x : double) : SFltb zero x = true -> not_nan x = true.
Proof. destruct x; easy. Qed.

(** A finite float minus itself is 0. *)
Lemma double_sub_diag (x : double) :
  is_finite x = true -> double_sub x x = zero.
Proof.
  destruct x as [[]|s| |s m e]; try discriminate; intros _;
    try reflexivity.
  unfold double_sub, SFsub. rewrite Z.min_id. unfold shl_align.
  rewrite !Z.sub_diag. reflexivity.
Qed.

(** ** Greatest and least price *)

Lemma py_max_greatest (xs : list double) (x : double) :
  Forall (fun y => not_nan y = true) (x :: xs) ->
  In (py_max x xs) (x :: xs) /\
  forall y, In y (x :: xs) -> SFleb y (py_max x xs) = true.
Proof.
  revert x. induction xs as [|z xs IH]; intros x Hnn.
  - inversion Hnn; subst. cbn. split; [now left|].
    intros y [<-|[]]. now apply SFleb_refl.
  - inversion Hnn as [|? ? Hx Hrest]; subst.
    inversion Hrest as [|? ? Hz Hxs]; subst.
    change (py_max x (z :: xs))
      with (py_max (if SFltb x z then z else x) xs).
    assert (Hnn' : Forall (fun y => not_nan y = true)
                          ((if SFltb x z then z else x) :: xs)).
    { constructor; [destruct (SFltb x z); assumption | exact Hxs]. }
    destruct (IH _ Hnn') as [Hin Hle].
    assert (Hxz : SFleb x (py_max (if SFltb x z then z else x) xs) = true /\
                  SFleb z (py_max (if SFltb x z then z else x) xs) = true).
    { pose proof (Hle _ (or_introl eq_refl)) as Hm.
      destruct (SFltb x z) eqn:E.
      - split; [| exact Hm].
        eapply SFleb_trans; [apply SFltb_leb; exact E | exact Hm].
      - split; [exact Hm|].
        eapply SFleb_trans; [exact (SFltb_false_leb x z Hx Hz E) | exact Hm]. }
    split.
    + destruct Hin as [Hin|Hin].
      * rewrite <- Hin. destruct (SFltb x z); [right; now left | now left].
      * right. now right.
    + intros y [<-|[<-|Hy]]; [apply Hxz | apply Hxz |].
      apply Hle. now right.
Qed.

Lemma py_min_least (xs : list double) (x : double) :
  Forall (fun y => not_nan y = true) (x :: xs) ->
  In (py_min x xs) (x :: xs) /\
  forall y, In y (x :: xs) -> SFleb (py_min x xs) y = true.
Proof.
  revert x. induction xs as [|z xs IH]; intros x Hnn.
  - inversion Hnn; subst. cbn. split; [now left|].
    intros y [<-|[]]. now apply SFleb_refl.
  - inversion Hnn as [|? ? Hx Hrest]; subst.
    inversion Hrest as [|? ? Hz Hxs]; subst.
    change (py_min x (z :: xs))
      with (py_min (if SFltb z x then z else x) xs).
    assert (Hnn' : Forall (fun y => not_nan y = true)
                          ((if SFltb z x then z else x) :: xs)).
    { constructor; [destruct (SFltb z x); assumption | exact Hxs]. }
    destruct (IH _ Hnn') as [Hin Hle].
    assert (Hxz : SFleb (py_min (if SFltb z x then z else x) xs) x = true /\
                  SFleb (py_min (if SFltb z x then z else x) xs) z = true).
    { pose proof (Hle _ (or_introl eq_refl)) as Hm.
      destruct (SFltb z x) eqn:E.
      - split; [| exact Hm].
        eapply SFleb_trans; [exact Hm | apply SFltb_leb; exact E].
      - split; [exact Hm|].
        eapply SFleb_trans; [exact Hm | exact (SFltb_false_leb z x Hz Hx E)]. }
    split.
    + destruct Hin as [Hin|Hin].
      * rewrite <- Hin. destruct (SFltb z x); [right; now left | now left].
      * right. now right.
    + intros y [<-|[<-|Hy]]; [apply Hxz | apply Hxz |].
      apply Hle. now right.
Qed.

Lemma priced_prices_not_nan (results : list Offer) :
  Forall (fun y => not_nan y = true) (map price (filter is_priced results)).
Proof.
  apply Forall_map. apply Forall_forall. intros o Ho.
  apply filter_In in Ho as [_ Hp]. now apply positive_not_nan.
Qed.

(** The savings of a result list that has more than one entry or no priced
    one, against the greatest and the least price of its priced offers. *)
Lemma savings_of_max_minus_min (results : list Offer) :
  (1 < List.length results)%nat \/ filter is_priced results = [] ->
  savings_spec results (savings_of results).
Proof.
  intros Hlen. unfold savings_spec, savings_of.
  pose proof (priced_prices_not_nan results) as Hnn.
  destruct (1 <? List.length results)%nat eqn:E.
  - destruct (map price (filter is_priced results)) as [|p ps];
      [reflexivity|].
    destruct (py_max_greatest ps p Hnn) as [Hmi Hm].
    destruct (py_min_least ps p Hnn) as [Hni Hn].
    exists (py_max p ps), (py_min p ps).
    split; [exact Hmi|]. split; [exact Hni|].
    split; [intros x Hx; split; auto|].
    split; [reflexivity|]. split.
    + intros -> Hfin. cbn. now apply double_sub_diag.
    + intros -> Hinf. cbn. inversion Hnn as [|? ? Hp _]; subst.
      destruct p as [s|[]| |s m e]; try discriminate; reflexivity.
  - destruct Hlen as [Hlen | ->]; [| reflexivity].
    apply Nat.ltb_ge in E. lia.
Qed.

(** ** Sorting by price *)

Lemma insert_by_price_perm (x : Offer) (l : list Offer) :
  Permutation (insert_by_price x l) (x :: l).
Proof.
  induction l as [|y l IH]; cbn [insert_by_price]; [reflexivity|].
  destruct (SFleb (price x) (price y)); [reflexivity|].
  rewrite IH. apply perm_swap.
Qed.

Lemma sort_by_price_perm (l : list Offer) :
  Permutation (sort_by_price l) l.
Proof.
  induction l as [|x l IH]; cbn [sort_by_price]; [reflexivity|].
  rewrite insert_by_price_perm. now constructor.
Qed.

Lemma insert_by_price_sorted (x : Offer) (l : list Offer) :
  is_priced x = true ->
  Forall (fun o => is_priced o = true) l ->
  StronglySorted price_le l -> StronglySorted price_le (insert_by_price x l).
Proof.
  intros Hx. induction l as [|y l IH]; intros Hp Hs; cbn [insert_by_price].
  - constructor; constructor.
  - inversion Hs as [|? ? Hl Hy]; subst.
    inversion Hp as [|? ? Hpy Hpl]; subst.
    destruct (SFleb (price x) (price y)) eqn:E.
    + constructor; [exact Hs|].
      constructor; [exact E|].
      eapply Forall_impl; [| exact Hy]. intros z Hz.
      unfold price_le in *. eapply SFleb_trans; eassumption.
    + constructor; [now apply IH|].
      apply (Permutation_Forall (Permutation_sym (insert_by_price_perm x l))).
      constructor; [| exact Hy].
      unfold price_le. apply SFleb_total; [| | exact E];
        now apply positive_not_nan.
Qed.

Lemma sort_by_price_sorted (l : list Offer) :
  Forall (fun o => is_priced o = true) l ->
  StronglySorted price_le (sort_by_price l).
Proof.
  induction l as [|x l IH]; intros Hp; cbn [sort_by_price]; [constructor|].
  inversion Hp; subst. apply insert_by_price_sorted; [assumption | | now apply IH].
  now apply (Permutation_Forall (Permutation_sym (sort_by_price_perm l))).
Qed.

(** Stability: insertion goes past strictly cheaper offers only, so the
    offers of one price stay in the order they had. *)
Lemma insert_by_price_stable (p : double) (x : Offer) (l : list Offer) :
  filter (has_price p) (insert_by_price x l) =
  filter (has_price p) (x :: l).
Proof.
  induction l as [|y l IH]; cbn [insert_by_price]; [reflexivity|].
  destruct (SFleb (price x) (price y)) eqn:E; [reflexivity|].
  cbn [filter] in *. rewrite IH.
  destruct (has_price p x) eqn:Hx; [| reflexivity].
  destruct (has_price p y) eqn:Hy; [| reflexivity].
  exfalso. unfold has_price in Hx, Hy.
  rewrite (SFeqb_leb _ _ _ Hx Hy) in E. discriminate E.
Qed.

Lemma sort_by_price_stable (p : double) (l : list Offer) :
  filter (has_price p) (sort_by_price l) = filter (has_price p) l.
Proof.
  induction l as [|x l IH]; cbn [sort_by_price]; [reflexivity|].
  rewrite insert_by_price_stable. cbn [filter]. now rewrite IH.
Qed.

(** The output of the aggregator on any concatenated input. *)
Lemma combine_results_order (all_results : list Offer) :
  exists sorted,
    combine_results all_results = sorted ++ filter is_link all_results /\
    Permutation sorted (filter is_priced all_results) /\
    StronglySorted price_le sorted /\
    (forall p, filter (has_price p) sorted =
               filter (has_price p) (filter is_priced all_results)).
Proof.
  exists (sort_by_price (filter is_priced all_results)).
  split; [reflexivity|]. split; [apply sort_by_price_perm|].
  split; [| intros p; apply sort_by_price_stable].
  apply sort_by_price_sorted. apply Forall_forall. intros o Ho.
  now apply filter_In in Ho.
Qed.

(** * Auction client *)

Ltac bind_step H :=
  match type of H with
  | bind ?r _ = Ok _ =>
      let E := fresh "E" in
      destruct r eqn:E; cbn [bind] in H; [| discriminate H]
  end.

Section Marketplace.

Variable float_of_string : string -> option double.
Variable requests_get : list (string * string) -> result json.

Local Abbreviation ebay_price := (ebay_price float_of_string).
Local Abbreviation ebay_offer := (ebay_offer float_of_string).
Local Abbreviation ebay_loop := (ebay_loop float_of_string).
Local Abbreviation search_ebay := (search_ebay float_of_string requests_get).
Local Abbreviation search_all := (search_all float_of_string requests_get).
Local Abbreviation search := (search float_of_string requests_get).

Lemma ebay_loop_app (a b : list json) (acc : list Offer) :
  ebay_loop (a ++ b) acc = (r <- ebay_loop a acc ;; ebay_loop b r).
Proof.
  revert acc. induction a as [|item a IH]; intros acc; [reflexivity|].
  simpl.
  destruct (ebay_offer item) as [o|e]; [apply IH|].
  destruct (skipped e); [apply IH | reflexivity].
Qed.

Lemma ebay_loop_Forall (P : Offer -> Prop) (items : list json) :
  (forall item o, ebay_offer item = Ok o -> P o) ->
  forall acc r,
    Forall P acc -> ebay_loop items acc = Ok r -> Forall P r.
Proof.
  intros HP. induction items as [|item items IH]; intros acc r Hacc H.
  - cbn in H. now injection H as <-.
  - simpl in H.
    destruct (ebay_offer item) as [o|e] eqn:E.
    + apply (IH (acc ++ [o])); [| exact H].
      apply Forall_app. split; [exact Hacc|]. constructor; [| constructor].
      now apply (HP item).
    + destruct (skipped e); [| discriminate H]. now apply (IH acc).
Qed.

Lemma ebay_loop_length (items : list json) (acc r : list Offer) :
  ebay_loop items acc = Ok r ->
  (List.length r <= List.length acc + List.length items)%nat.
Proof.
  revert acc. induction items as [|item items IH]; intros acc H.
  - cbn in H. injection H as <-. lia.
  - simpl in H. cbn [List.length].
    destruct (ebay_offer item) as [o|e].
    + apply IH in H. rewrite length_app in H. cbn in H. lia.
    + destruct (skipped e); [| discriminate H]. apply IH in H. lia.
Qed.

Lemma slice5_length (v : json) (l : list json) :
  slice5 v = Ok l -> (List.length l <= 5)%nat.
Proof.
  destruct v; unfold slice5; intros H; try discriminate H;
    match type of H with
    | Ok ?x = Ok _ => assert (Hx : x = l) by congruence; rewrite <- Hx
    end; apply firstn_le_length.
Qed.

Lemma search_ebay_length (f : BookPriceFinder) (query : string)
  (isbn : option string) :
  (List.length (search_ebay f query isbn) <= 5)%nat.
Proof.
  unfold search_ebay.
  destruct (ebay_api_key f) as [[|c k]|]; cbn [List.length]; try lia.
  destruct (ebay_try _ _ _ _) as [r|e] eqn:H; cbn [List.length]; [| lia].
  unfold ebay_try in H. repeat bind_step H.
  apply ebay_loop_length in H. cbn in H.
  match goal with E : slice5 _ = Ok _ |- _ => apply slice5_length in E end.
  lia.
Qed.

(** An offer of the auction client carries no search-link flag. *)
Lemma ebay_offer_unflagged (item : json) (o : Offer) :
  ebay_offer item = Ok o -> is_link o = false.
Proof.
  unfold ebay_offer. intros H. repeat bind_step H.
  now injection H as <-.
Qed.

Lemma search_ebay_unflagged (f : BookPriceFinder) (query : string)
  (isbn : option string) :
  filter is_link (search_ebay f query isbn) = [].
Proof.
  assert (H : Forall (fun o => is_link o = false) (search_ebay f query isbn)).
  { unfold search_ebay.
    destruct (ebay_api_key f) as [[|c k]|]; try constructor.
    destruct (ebay_try _ _ _ _) as [r|e] eqn:H; [| constructor].
    unfold ebay_try in H. repeat bind_step H.
    eapply ebay_loop_Forall;
      [exact ebay_offer_unflagged | constructor | exact H]. }
  induction H as [|o l Ho _ IH]; [reflexivity|].
  cbn [filter]. now rewrite Ho.
Qed.

(** C3. [search_all] is [combine_results] of the auction offers followed by
    the retail offer.  On every input list, whatever its order,
    [combine_results] yields the offers with price above 0, in non-decreasing
    order of price and with the offers of one price in the order they had in
    the input, followed by the offers that carry the search-link flag.  On the
    lists of the two clients the output is the same when the retail offer is
    concatenated first. *)
Theorem search_all_sorted_then_links (f : BookPriceFinder) (query : string)
  (isbn : option string) :
  let ebay_results := search_ebay f query isbn in
  let amazon_results := search_amazon f query isbn in
  search_all f query isbn = combine_results (ebay_results ++ amazon_results) /\
  (forall all_results : list Offer,
     exists sorted,
       combine_results all_results =
       sorted ++ filter is_link all_results /\
       Permutation sorted (filter is_priced all_results) /\
       StronglySorted price_le sorted /\
       (forall p, filter (has_price p) sorted =
                  filter (has_price p) (filter is_priced all_results))) /\
  combine_results (amazon_results ++ ebay_results) =
  combine_results (ebay_results ++ amazon_results).
Proof.
  intros ebay_results amazon_results.
  split; [reflexivity|]. split; [apply combine_results_order|].
  unfold combine_results. rewrite !filter_app.
  subst ebay_results. rewrite search_ebay_unflagged.
  subst amazon_results. cbn [search_amazon filter is_priced is_link price
                             is_search_link].
  replace (SFltb zero zero) with false by reflexivity.
  cbn [app]. now rewrite !app_nil_r.
Qed.

(** The aggregated list: the priced auction offers, sorted, then the retail
    link. *)
Lemma search_all_shape (f : BookPriceFinder) (query : string)
  (isbn : option string) :
  search_all f query isbn =
  sort_by_price (filter is_priced (search_ebay f query isbn)) ++
  search_amazon f query isbn.
Proof.
  unfold search_all, combine_results. rewrite !filter_app.
  rewrite search_ebay_unflagged.
  cbn [search_amazon filter is_priced is_link price is_search_link].
  replace (SFltb zero zero) with false by reflexivity.
  now rewrite app_nil_r.
Qed.

(** C4. In a response of [search] the savings are 0 when no offer of the
    results has a price above 0; otherwise they are the float difference of
    the greatest and the least of the prices above 0, which is 0 when there is
    one such offer and its price is finite, and nan when there is one such
    offer and its price is infinite. *)
Theorem search_savings (f : BookPriceFinder) (t1 t2 t3 t4 : datetime)
  (data : json) (u : User) (results : list Offer) (savings : double)
  (rem : Remaining) :
  fst (search f t1 t2 t3 t4 data u) = SearchOk results savings rem ->
  savings_spec results savings.
Proof.
  unfold search.
  destruct (can_search t1 t2 t3 u) as [[[|]|e] u1]; try discriminate.
  destruct (read_body data) as [[q i]|e]; [| discriminate].
  destruct (is_empty q && is_empty i); [discriminate|].
  destruct (increment_search t4 u1) as [[[]|e] u2]; [| discriminate].
  cbn [fst]. intros H. injection H as <- <- _.
  apply savings_of_max_minus_min. rewrite search_all_shape.
  destruct (sort_by_price (filter is_priced (search_ebay f q (Some i))))
    as [|o rest].
  - right. reflexivity.
  - left. rewrite length_app. cbn [List.length search_amazon]. lia.
Qed.

Lemma ebay_price_listing (v : json) (name link : string) :
  ebay_price (listing v name link) = py_float float_of_string v.
Proof. reflexivity. Qed.

Lemma ebay_offer_price_raises (item : json) (e : exn) :
  ebay_price item = Raise e -> ebay_offer item = Raise e.
Proof.
  intros H. unfold ebay_offer. now rewrite H.
Qed.

Ltac ok_inj :=
  repeat match goal with
         | E : Ok ?x = Ok ?y |- _ =>
             injection E as E; first [subst y | subst x]; cbn in *
         end.

Lemma ebay_offer_defaults (kvs : list (string * json)) (o : Offer) :
  ebay_offer (JObj kvs) = Ok o ->
  (lookup "condition" kvs = None -> condition o = JStr "Used") /\
  (lookup "shippingInfo" kvs = None -> shipping o = Some (JStr "0")).
Proof.
  unfold ebay_offer. intros H. repeat bind_step H.
  injection H as <-. cbn [condition shipping].
  split; intros Hn; unfold dict_get in *; rewrite Hn in *; ok_inj;
    reflexivity.
Qed.

(** C5. A listing whose price lookup raises one of the exceptions of the inner
    [except] clause ([KeyError] or [IndexError]: a key or list element on the
    path is absent; [ValueError]: the price string is not a number) is
    skipped, and the loop yields what it yields on the other listings.  A
    listing that raises any other exception ends the loop with it, and the
    outer handler turns that, like a failed request or an undecodable body,
    into the empty list.  The client returns at most 5 offers; an offer built
    from a listing without [condition] has condition "Used", one built from a
    listing without [shippingInfo] has shipping "0". *)
Theorem search_ebay_fail_soft (f : BookPriceFinder) (query : string)
  (isbn : option string) (pre post : list json) (bad : json)
  (acc : list Offer) (e : exn) :
  ebay_price bad = Raise e ->
  skipped e = true ->
  ebay_loop (pre ++ bad :: post) acc = ebay_loop (pre ++ post) acc /\
  (forall kvs, lookup "sellingStatus" kvs = None ->
               ebay_price (JObj kvs) = Raise KeyError) /\
  (forall s name link,
     float_of_string s = None ->
     ebay_price (listing (JStr s) name link) = Raise ValueError) /\
  (forall name link,
     ebay_offer (listing JNull name link) = Raise TypeError) /\
  (forall items item acc0 acc1 e0,
     ebay_loop items acc0 = Ok acc1 ->
     ebay_offer item = Raise e0 -> skipped e0 = false ->
     ebay_loop (items ++ item :: post) acc0 = Raise e0) /\
  (forall c k items,
     ebay_api_key f = Some (String c k) ->
     requests_get (ebay_params (String c k) (search_term_of query isbn)) =
     Ok (ebay_response items) ->
     search_ebay f query isbn =
     match ebay_loop (firstn 5 items) [] with
     | Ok results => results
     | Raise _ => []
     end) /\
  (forall c k e0,
     ebay_api_key f = Some (String c k) ->
     requests_get (ebay_params (String c k) (search_term_of query isbn)) =
     Raise e0 ->
     search_ebay f query isbn = []) /\
  (List.length (search_ebay f query isbn) <= 5)%nat /\
  (forall kvs o,
     ebay_offer (JObj kvs) = Ok o ->
     (lookup "condition" kvs = None -> condition o = JStr "Used") /\
     (lookup "shippingInfo" kvs = None -> shipping o = Some (JStr "0"))).
Proof.
  intros He Hs.
  split; [| split; [| split; [| split; [| split; [| split; [| split;
    [| split]]]]]]].
  - rewrite !ebay_loop_app. destruct (ebay_loop pre acc) as [r|e1];
      [| reflexivity].
    cbn [bind]. simpl. rewrite (ebay_offer_price_raises _ _ He).
    now rewrite Hs.
  - intros kvs Hn. unfold ebay_price, getitem_key. now rewrite Hn.
  - intros s name link Hn. rewrite ebay_price_listing. cbn. now rewrite Hn.
  - reflexivity.
  - intros items item acc0 acc1 e0 Hl Ho Hk. rewrite ebay_loop_app, Hl.
    cbn [bind]. simpl. now rewrite Ho, Hk.
  - intros c k items Hk Hr. unfold search_ebay, ebay_try.
    rewrite Hk, Hr. reflexivity.
  - intros c k e0 Hk Hr. unfold search_ebay, ebay_try.
    rewrite Hk, Hr. reflexivity.
  - apply search_ebay_length.
  - apply ebay_offer_defaults.
Qed.

End Marketplace.

(** * The statements at concrete inputs *)

Lemma can_search_answer_witness :
  premium_wf free_user /\
  exists b, fst (can_search 0 0 0 free_user) = Ok b /\
            (b = true <-> searches_today free_user < 5).
Proof.
  assert (Hwf : premium_wf free_user) by (intros H; discriminate H).
  split; [exact Hwf|].
  destruct (can_search_answer 0 0 0 free_user Hwf) as [_ Hother].
  destruct Hother as [b [Hb [Hiff _]]].
  - intros [Hp _]. discriminate Hp.
  - exists b. split; [exact Hb | exact Hiff].
Defined.

Lemma can_search_day_reset_witness :
  date (last_search_reset exhausted_user) < date (2 * microseconds_per_day) /\
  searches_today
    (snd (can_search (2 * microseconds_per_day) (2 * microseconds_per_day + 1)
                     (2 * microseconds_per_day + 2) exhausted_user)) = 0.
Proof.
  assert (H : date (last_search_reset exhausted_user)
              < date (2 * microseconds_per_day)) by (vm_compute; reflexivity).
  split; [exact H|].
  exact (proj1 (proj1 (can_search_day_reset
                         (2 * microseconds_per_day)
                         (2 * microseconds_per_day + 1)
                         (2 * microseconds_per_day + 2) exhausted_user) H)).
Defined.

Lemma search_forbidden_no_mutation_witness :
  fst (search float_of_decimal failing_service sample_finder 0 0 0 0
              sample_body exhausted_user) = Forbidden /\
  snd (search float_of_decimal failing_service sample_finder 0 0 0 0
              sample_body exhausted_user) = exhausted_user.
Proof.
  assert (H : fst (search float_of_decimal failing_service sample_finder
                          0 0 0 0 sample_body exhausted_user) = Forbidden)
    by reflexivity.
  split; [exact H|].
  exact (proj1 (search_forbidden_no_mutation
                  float_of_decimal failing_service sample_finder 0 0 0 0
                  sample_body exhausted_user H)).
Defined.

Lemma webhook_cancellation_frame_witness :
  NoDup (map id sample_store) /\
  exists before after,
    sample_store = before ++ subscriber :: after /\
    stripe_webhook (Verified (cancel_event "member@example.org")) sample_store =
    (Ok 200,
     before ++
     mkUser 3 "member@example.org" (Some "hash") false None
            (Some (add_days 0 30)) 7 0 0 :: after).
Proof.
  assert (Hnd : NoDup (map id sample_store)).
  { cbn. repeat constructor; cbn; intuition discriminate. }
  split; [exact Hnd|].
  exact (proj1 (webhook_cancellation_frame
                  sample_store (cancel_event "member@example.org") Hnd)
               "member@example.org" subscriber eq_refl eq_refl eq_refl).
Defined.

Lemma reachable_accounts_never_raise_witness :
  let store :=
    handle float_of_decimal failing_service sample_finder
      (ReqPaymentSuccess 1 0)
      (handle float_of_decimal failing_service sample_finder
         (ReqSignup "reader@example.org" "hash" 0 0) []) in
  let u :=
    mkUser 1 "reader@example.org" (Some "hash") true None
           (Some (add_days 0 30)) 0 0 0 in
  reachable float_of_decimal failing_service sample_finder store /\
  In u store /\
  premium_wf u /\
  (forall t1 t2 t3, exists b, fst (can_search t1 t2 t3 u) = Ok b) /\
  (forall t, fst (increment_search t u) = Ok tt).
Proof.
  intros store u.
  assert (Hr : reachable float_of_decimal failing_service sample_finder store).
  { apply reach_handle. apply reach_handle. apply reach_empty. }
  assert (Hin : In u store) by (left; reflexivity).
  split; [exact Hr|]. split; [exact Hin|].
  exact (reachable_accounts_never_raise
           float_of_decimal failing_service sample_finder store u Hr Hin).
Defined.

Lemma search_savings_witness :
  exists results rem,
    fst (search float_of_decimal (service_of sample_items) sample_finder
                0 0 0 0 sample_body free_user)
    = SearchOk results (decimal "11.50") rem /\
    savings_spec results (decimal "11.50").
Proof.
  eexists. eexists.
  assert (H : fst (search float_of_decimal (service_of sample_items)
                          sample_finder 0 0 0 0 sample_body free_user)
              = SearchOk _ (decimal "11.50") _)
    by (vm_compute; reflexivity).
  split; [exact H|].
  exact (search_savings float_of_decimal (service_of sample_items)
           sample_finder 0 0 0 0 sample_body free_user _ _ _ H).
Defined.

(** C4, as stated, fails: with one priced offer whose price is infinite (the
    price string "inf", as "1e999" would be) the savings are inf - inf, which
    is nan and not 0. *)
Lemma single_infinite_price_savings_nan :
  let service :=
    service_of [listing (JStr "inf") "Calculus" "https://ebay.example/5"] in
  (exists results rem,
     fst (search float_of_decimal service sample_finder 0 0 0 0
                 sample_body free_user) = SearchOk results S754_nan rem /\
     map price (filter is_priced results) = [infinity]) /\
  ~ (forall results savings rem,
       fst (search float_of_decimal service sample_finder 0 0 0 0
                   sample_body free_user) = SearchOk results savings rem ->
       List.length (filter is_priced results) = 1%nat ->
       savings = zero).
Proof.
  intros service. split.
  - eexists. eexists. split; vm_compute; reflexivity.
  - intros H.
    assert (Hrun : exists results rem,
               fst (search float_of_decimal service sample_finder 0 0 0 0
                           sample_body free_user)
               = SearchOk results S754_nan rem /\
               List.length (filter is_priced results) = 1%nat).
    { eexists. eexists. split; vm_compute; reflexivity. }
    destruct Hrun as [results [rem [Hrun Hone]]].
    specialize (H results S754_nan rem Hrun Hone). discriminate H.
Qed.

(** C6, as stated, fails: with no tag configured a query that itself holds
    [&tag=] gives a URL with a tag parameter, since only spaces are
    rewritten. *)
Lemma query_can_carry_a_tag_parameter :
  let f := mkFinder None None in
  truthy (amazon_tag f) = false /\
  map url (search_amazon f "Calculus&tag=evil-20" None) =
  [JStr "https://www.amazon.com/s?k=Calculus&tag=evil-20"] /\
  contains "tag=" "https://www.amazon.com/s?k=Calculus&tag=evil-20" = true /\
  ~ (forall (g : BookPriceFinder) (query : string) (isbn : option string)
            (link : string),
       map url (search_amazon g query isbn) = [JStr link] ->
       (contains "tag=" link = true <-> truthy (amazon_tag g) = true)).
Proof.
  intros f. split; [reflexivity|]. split; [reflexivity|].
  split; [vm_compute; reflexivity|].
  intros H.
  specialize (H f "Calculus&tag=evil-20" None
                "https://www.amazon.com/s?k=Calculus&tag=evil-20" eq_refl).
  destruct H as [H _].
  assert (Hc : contains "tag=" "https://www.amazon.com/s?k=Calculus&tag=evil-20"
               = true) by (vm_compute; reflexivity).
  specialize (H Hc). discriminate H.
Qed.

Lemma search_ebay_fail_soft_witness :
  let bad := listing (JStr "call for price") "Calculus" "https://ebay.example/0" in
  ebay_price float_of_decimal bad = Raise ValueError /\
  skipped ValueError = true /\
  ebay_loop float_of_decimal (bad :: sample_items) [] =
  ebay_loop float_of_decimal sample_items [].
Proof.
  intros bad.
  assert (H : ebay_price float_of_decimal bad = Raise ValueError)
    by reflexivity.
  split; [exact H|]. split; [reflexivity|].
  exact (proj1 (search_ebay_fail_soft
                  float_of_decimal failing_service sample_finder
                  "Calculus" None [] sample_items bad [] ValueError
                  H eq_refl)).
Defined.

(** C5, as stated, fails: a listing whose price is JSON [null] has no
    parsable price, yet it is not skipped; [float(None)] raises [TypeError],
    which the inner clause does not catch, and the call returns no offer at
    all although the listing after it is sound. *)
Lemma price_failure_can_drop_every_listing :
  let bad := listing JNull "Calculus" "https://ebay.example/0" in
  let good := listing (JStr "8.50") "Calculus, 7th ed." "https://ebay.example/2" in
  raises (ebay_price float_of_decimal bad) /\
  search_ebay float_of_decimal (service_of [bad; good]) sample_finder
              "Calculus" None = [] /\
  List.length (search_ebay float_of_decimal (service_of [good]) sample_finder
                           "Calculus" None) = 1%nat /\
  ~ (forall (pre post : list json) (item : json) (acc : list Offer),
       raises (ebay_price float_of_decimal item) ->
       ebay_loop float_of_decimal (pre ++ item :: post) acc =
       ebay_loop float_of_decimal (pre ++ post) acc).
Proof.
  intros bad good.
  assert (Hbad : raises (ebay_price float_of_decimal bad))
    by (exists TypeError; reflexivity).
  split; [exact Hbad|]. split; [reflexivity|]. split; [reflexivity|].
  intros H. specialize (H [] [good] bad [] Hbad). discriminate H.
Qed.

(** The aggregator and the handler on the sample listings: prices in
    ascending order with the retail link last; savings for three, one and no
    priced offer. *)
Example search_all_sample_order :
  map price (search_all float_of_decimal (service_of sample_items)
                        sample_finder "Calculus" None) =
  [decimal "8.50"; decimal "12.00"; decimal "20.00"; zero].
Proof. vm_compute. reflexivity. Qed.

Example savings_single_priced_offer :
  savings_of
    (search_all float_of_decimal
                (service_of [listing (JStr "9.99") "Calculus" "https://ebay.example/4"])
                sample_finder "Calculus" None) = zero.
Proof. vm_compute. reflexivity. Qed.

Example savings_no_priced_offer :
  savings_of (search_all float_of_decimal failing_service sample_finder
                         "Calculus" None) = zero.
Proof. reflexivity. Qed.

(** The difference is the rounded one of the floats: 19.99 - 0.01 is the
    float below 19.98. *)
Example savings_is_rounded :
  let items := [ listing (JStr "19.99") "Calculus" "https://ebay.example/6";
                 listing (JStr "0.01") "Calculus" "https://ebay.example/7" ] in
  savings_of (search_all float_of_decimal (service_of items) sample_finder
                         "Calculus" None) =
  S754_finite false 5623870034678906 (-48) /\
  decimal "19.98" = S754_finite false 5623870034678907 (-48).
Proof. split; vm_compute; reflexivity. Qed.

Example sort_by_price_keeps_ties :
  let a := mkOffer "eBay" (decimal "5") (JStr "a") JNull JNull None None None in
  let b := mkOffer "eBay" (decimal "3") (JStr "b") JNull JNull None None None in
  let c := mkOffer "eBay" (decimal "5.0") (JStr "c") JNull JNull None None None in
  sort_by_price [a; b; c] = [b; a; c] /\ sort_by_price [c; b; a] = [b; c; a].
Proof. split; vm_compute; reflexivity. Qed.

(** A premium account in force is not charged and is told "unlimited". *)
Example search_subscriber :
  exists results savings,
    search float_of_decimal failing_service sample_finder 0 0 0 0
           sample_body subscriber =
    (SearchOk results savings Unlimited, subscriber).
Proof. eexists. eexists. reflexivity. Qed.

(** * Further properties of the quota policy and the search handler *)

(** X1. A second check on the day of the first one does not reset again: the
    counter is zeroed at most once per calendar day. *)
Theorem can_search_same_day_idempotent (t1 t2 t3 t1' t2' t3' : datetime)
  (u : User) :
  date t1 <= date t2 ->
  date t1' = date t1 ->
  snd (can_search t1' t2' t3' (snd (can_search t1 t2 t3 u))) =
  snd (can_search t1 t2 t3 u).
Proof.
  intros Hstamp Hday. cbn [can_search snd]. unfold reset_if_new_day.
  destruct (date (last_search_reset u) <? date t1) eqn:Hd.
  - cbn [last_search_reset set_last_search_reset].
    assert (H : (date t2 <? date t1') = false) by (apply Z.ltb_ge; lia).
    now rewrite H.
  - rewrite Hday, Hd. reflexivity.
Qed.

(** X7. Thirty days of premium: after [payment_success] the quota check succeeds
    whatever the counter for every reading before the expiry, which lies 30
    calendar days after the payment; from the expiry on the counter decides
    again. *)
Theorem payment_success_thirty_days (now t1 t2 t3 : datetime) (u : User) :
  let u' := payment_success now u in
  premium_expires u' = Some (now + 30 * microseconds_per_day) /\
  date (now + 30 * microseconds_per_day) = date now + 30 /\
  searches_today u' = searches_today u /\
  last_search_reset u' = last_search_reset u /\
  (t3 < now + 30 * microseconds_per_day ->
   fst (can_search t1 t2 t3 u') = Ok true /\
   snd (increment_search t3 u') = u') /\
  (now + 30 * microseconds_per_day <= t3 ->
   fst (can_search t1 t2 t3 u') =
   Ok (searches_today (snd (can_search t1 t2 t3 u')) <? 5) /\
   searches_today (snd (increment_search t3 u')) = searches_today u + 1).
Proof.
  intros u'. subst u'.
  split; [reflexivity|].
  split; [unfold date; apply Z.div_add; discriminate|].
  split; [reflexivity|]. split; [reflexivity|].
  unfold can_search, increment_search, premium_active.
  destruct (reset_if_new_day_premium t1 t2 (payment_success now u))
    as [Hp He].
  rewrite Hp, He. cbn [payment_success is_premium premium_expires
                       set_premium_expires set_is_premium add_days fst snd bind].
  unfold add_days. split; intros Ht.
  - apply Z.ltb_lt in Ht. rewrite Ht. split; reflexivity.
  - apply Z.ltb_ge in Ht. rewrite Ht. split; reflexivity.
Qed.

Section HandlerMore.

Variable float_of_string : string -> option double.
Variable requests_get : list (string * string) -> result json.
Variable f : BookPriceFinder.

Local Abbreviation search := (search float_of_string requests_get f).
Local Abbreviation search_all := (search_all float_of_string requests_get f).

(** One request of a free account on the day of its last reset. *)
Lemma search_free_step (t1 t2 t3 t4 : datetime) (data : json) (u : User)
  (q i : string) :
  is_premium u = false ->
  date t1 <= date (last_search_reset u) ->
  read_body data = Ok (q, i) ->
  is_empty q && is_empty i = false ->
  search t1 t2 t3 t4 data u =
  if searches_today u <? 5 then
    (SearchOk (search_all q (Some i)) (savings_of (search_all q (Some i)))
              (Count (Z.max 0 (5 - (searches_today u + 1)))),
     set_searches_today u (searches_today u + 1))
  else (Forbidden, u).
Proof.
  intros Hp Hday Hbody Hne. unfold search, can_search, reset_if_new_day.
  assert (Hd : (date (last_search_reset u) <? date t1) = false)
    by (apply Z.ltb_ge; lia).
  rewrite Hd. unfold premium_active at 1. rewrite Hp. cbn [bind].
  destruct (searches_today u <? 5); [| reflexivity].
  rewrite Hbody, Hne. unfold increment_search, premium_active.
  rewrite Hp. cbn [negb]. unfold searches_remaining.
  cbn [is_premium set_searches_today searches_today]. now rewrite Hp.
Qed.

(** X2. The daily limit.  For a free account with at most 5 searches counted,
    after any number of well-formed requests on the day of its last reset the
    counter is the smaller of 5 and the old counter plus the number of
    requests; a further such request is refused exactly when that sum has
    reached 5, and is otherwise answered with the remaining allowance. *)
Theorem search_daily_limit (calls : list SearchCall) (u : User)
  (t1 t2 t3 t4 : datetime) (data : json) (q i : string) :
  is_premium u = false ->
  searches_today u <= 5 ->
  Forall (fun c : SearchCall =>
            let '(c1, _, _, _, body) := c in
            date c1 <= date (last_search_reset u) /\
            exists cq ci, read_body body = Ok (cq, ci) /\
                          is_empty cq && is_empty ci = false) calls ->
  date t1 <= date (last_search_reset u) ->
  read_body data = Ok (q, i) ->
  is_empty q && is_empty i = false ->
  let served :=
    fold_left (fun (v : User) (c : SearchCall) =>
                 let '(c1, c2, c3, c4, body) := c in
                 snd (search c1 c2 c3 c4 body v)) calls u in
  let total := searches_today u + Z.of_nat (List.length calls) in
  searches_today served = Z.min 5 total /\
  (5 <= total -> search t1 t2 t3 t4 data served = (Forbidden, served)) /\
  (total < 5 ->
   exists results savings,
     fst (search t1 t2 t3 t4 data served) =
     SearchOk results savings (Count (5 - (total + 1))) /\
     searches_today (snd (search t1 t2 t3 t4 data served)) = total + 1).
Proof.
  intros Hp Hc Hall Hday Hbody Hne served total.
  assert (Hinv : is_premium served = false /\
                 last_search_reset served = last_search_reset u /\
                 searches_today served = Z.min 5 total).
  { subst served total. clear Hday Hbody Hne.
    revert u Hp Hc Hall. induction calls as [|c calls' IH]; intros u Hp Hc Hall.
    - cbn [fold_left List.length]. split; [exact Hp|].
      split; [reflexivity | lia].
    - inversion Hall as [|? ? Hc0 Hall']; subst.
      destruct c as [[[[c1 c2] c3] c4] body].
      destruct Hc0 as [Hd [cq [ci [Hb Hn]]]].
      cbn [fold_left].
      pose proof (search_free_step c1 c2 c3 c4 body u cq ci Hp Hd Hb Hn)
        as Hstep.
      set (u1 := snd (search c1 c2 c3 c4 body u)).
      assert (H1 : is_premium u1 = false /\
                   last_search_reset u1 = last_search_reset u /\
                   searches_today u1 =
                   if searches_today u <? 5 then searches_today u + 1
                   else searches_today u).
      { subst u1. rewrite Hstep.
        destruct (searches_today u <? 5); cbn; repeat split; assumption. }
      destruct H1 as [Hp1 [Hl1 Hc1]].
      assert (Hle1 : searches_today u1 <= 5).
      { rewrite Hc1. destruct (searches_today u <? 5) eqn:E;
          [apply Z.ltb_lt in E; lia | lia]. }
      assert (Hall1 :
                Forall (fun c : SearchCall =>
                          let '(c1, _, _, _, body) := c in
                          date c1 <= date (last_search_reset u1) /\
                          exists cq ci, read_body body = Ok (cq, ci) /\
                                        is_empty cq && is_empty ci = false)
                       calls').
      { rewrite Hl1. exact Hall'. }
      destruct (IH u1 Hp1 Hle1 Hall1) as [Hp2 [Hl2 Hc2]].
      split; [exact Hp2|]. split; [congruence|].
      rewrite Hc2, Hc1. cbn [List.length].
      destruct (searches_today u <? 5) eqn:E;
        [apply Z.ltb_lt in E | apply Z.ltb_ge in E]; lia. }
  destruct Hinv as [Hp' [Hl' Hc']].
  split; [exact Hc'|].
  assert (Hday' : date t1 <= date (last_search_reset served))
    by (rewrite Hl'; exact Hday).
  rewrite (search_free_step t1 t2 t3 t4 data served q i Hp' Hday' Hbody Hne).
  split; intros Ht.
  - assert (E : (searches_today served <? 5) = false)
      by (apply Z.ltb_ge; lia).
    now rewrite E.
  - assert (E : (searches_today served <? 5) = true)
      by (apply Z.ltb_lt; lia).
    rewrite E. eexists. eexists. cbn [fst snd searches_today set_searches_today].
    split; [| lia]. do 2 f_equal. lia.
Qed.

End HandlerMore.

(** ** Stripping of the request fields *)

Lemma string_app_assoc (a b c : string) :
  ((a ++ b) ++ c)%string = (a ++ (b ++ c))%string.
Proof.
  induction a as [|x a IH]; cbn; [reflexivity | now rewrite IH].
Qed.

Lemma rev_string_acc (s acc : string) :
  rev_string s acc = (rev_string s EmptyString ++ acc)%string.
Proof.
  revert acc. induction s as [|c s IH]; intros acc; [reflexivity|].
  cbn [rev_string]. rewrite IH, (IH (String c EmptyString)).
  now rewrite string_app_assoc.
Qed.

Lemma rev_string_app (a b : string) :
  rev_string (a ++ b)%string EmptyString =
  (rev_string b EmptyString ++ rev_string a EmptyString)%string.
Proof.
  induction a as [|c a IH]; cbn [append rev_string].
  - now rewrite append_empty_r.
  - rewrite (rev_string_acc (a ++ b) (String c EmptyString)), IH,
      (rev_string_acc a (String c EmptyString)).
    now rewrite string_app_assoc.
Qed.

Lemma rev_string_involutive (s : string) :
  rev_string (rev_string s EmptyString) EmptyString = s.
Proof.
  induction s as [|c s IH]; [reflexivity|].
  cbn [rev_string]. rewrite (rev_string_acc s (String c EmptyString)).
  rewrite rev_string_app, IH. reflexivity.
Qed.

Lemma all_space_app (a b : string) :
  all_space (a ++ b)%string = all_space a && all_space b.
Proof.
  induction a as [|c a IH]; cbn [append all_space]; [reflexivity|].
  now rewrite IH, andb_assoc.
Qed.

Lemma all_space_rev (s : string) :
  all_space (rev_string s EmptyString) = all_space s.
Proof.
  induction s as [|c s IH]; [reflexivity|].
  cbn [rev_string all_space].
  rewrite (rev_string_acc s (String c EmptyString)), all_space_app, IH.
  cbn [all_space]. rewrite andb_true_r. apply andb_comm.
Qed.

Lemma lstrip_split (s : string) :
  exists a, s = (a ++ lstrip s)%string /\ all_space a = true.
Proof.
  induction s as [|c s [a [Hs Ha]]]; [now exists EmptyString|].
  cbn [lstrip]. destruct (is_space c) eqn:E.
  - exists (String c a). cbn [append all_space]. rewrite E, Ha.
    split; [now rewrite <- Hs | reflexivity].
  - now exists EmptyString.
Qed.

Lemma lstrip_head (s : string) (c : ascii) (r : string) :
  lstrip s = String c r -> is_space c = false.
Proof.
  induction s as [|x s IH]; cbn [lstrip]; [discriminate|].
  destruct (is_space x) eqn:E; [exact IH|].
  intros H. injection H as <- _. exact E.
Qed.

Lemma lstrip_fixed (s : string) :
  (forall c r, s = String c r -> is_space c = false) -> lstrip s = s.
Proof.
  destruct s as [|c s]; [reflexivity|]. intros H.
  cbn [lstrip]. now rewrite (H c s eq_refl).
Qed.

Lemma lstrip_all_space (s : string) :
  all_space s = true -> lstrip s = EmptyString.
Proof.
  induction s as [|c s IH]; [reflexivity|]. cbn [all_space lstrip].
  intros H. apply andb_true_iff in H as [Hc Hs]. rewrite Hc. now apply IH.
Qed.

Lemma strip_split (s : string) :
  exists a b,
    s = (a ++ strip s ++ b)%string /\
    lstrip s = (strip s ++ b)%string /\
    all_space a = true /\ all_space b = true.
Proof.
  destruct (lstrip_split s) as [a [Hs Ha]].
  destruct (lstrip_split (rev_string (lstrip s) EmptyString))
    as [b [Hb Hbs]].
  exists a, (rev_string b EmptyString).
  assert (Hl : lstrip s = (strip s ++ rev_string b EmptyString)%string).
  { rewrite <- (rev_string_involutive (lstrip s)) at 1.
    rewrite Hb at 1. rewrite rev_string_app. reflexivity. }
  split; [now rewrite <- Hl|]. split; [exact Hl|].
  split; [exact Ha | now rewrite all_space_rev].
Qed.

Lemma strip_empty_iff (s : string) :
  strip s = EmptyString <-> all_space s = true.
Proof.
  split.
  - intros He. destruct (strip_split s) as [a [b [Hs [_ [Ha Hb]]]]].
    rewrite Hs, He, !all_space_app, Ha, Hb. reflexivity.
  - intros Ha. unfold strip. now rewrite (lstrip_all_space s Ha).
Qed.

(** X6. [strip] removes a run of whitespace at each end and nothing else: what is
    left neither starts nor ends with whitespace, stripping again changes
    nothing, and the result is empty exactly for a string of whitespace. *)
Theorem strip_spec (s : string) :
  (exists a b,
     s = (a ++ strip s ++ b)%string /\
     all_space a = true /\ all_space b = true) /\
  (forall c r, strip s = String c r -> is_space c = false) /\
  (forall p c, strip s = (p ++ String c EmptyString)%string ->
               is_space c = false) /\
  strip (strip s) = strip s /\
  (strip s = EmptyString <-> all_space s = true).
Proof.
  assert (Hrev : rev_string (strip s) EmptyString =
                 lstrip (rev_string (lstrip s) EmptyString)).
  { unfold strip. apply rev_string_involutive. }
  pose proof (strip_split s) as Hsplit.
  assert (Hhead : forall c r, strip s = String c r -> is_space c = false).
  { intros c r Hc. destruct Hsplit as [a [b [_ [Hl _]]]].
    rewrite Hc in Hl. cbn [append] in Hl. exact (lstrip_head _ _ _ Hl). }
  assert (Hlast : forall p c, strip s = (p ++ String c EmptyString)%string ->
                              is_space c = false).
  { intros p c Hc. rewrite Hc, rev_string_app in Hrev. cbn in Hrev.
    symmetry in Hrev. exact (lstrip_head _ _ _ Hrev). }
  split; [destruct Hsplit as [a [b [Hs [_ Hab]]]]; now exists a, b|].
  split; [exact Hhead|]. split; [exact Hlast|]. split.
  - unfold strip at 1. rewrite (lstrip_fixed (strip s) Hhead).
    rewrite lstrip_fixed; [apply rev_string_involutive|].
    intros c r Hc. rewrite Hrev in Hc. exact (lstrip_head _ _ _ Hc).
  - apply strip_empty_iff.
Qed.

Section HandlerFrames.

Variable float_of_string : string -> option double.
Variable requests_get : list (string * string) -> result json.
Variable f : BookPriceFinder.

Local Abbreviation search := (search float_of_string requests_get f).
Local Abbreviation search_all := (search_all float_of_string requests_get f).

(** X4. A request that is not answered with results is not charged: whatever the
    refusal (403, 400, or an exception leaving the handler), the account is
    the one the day check of [can_search] left, so its counter is the old one
    or, on a new day, 0. *)
Theorem search_rejected_not_charged (t1 t2 t3 t4 : datetime) (data : json)
  (u : User) :
  (forall results savings rem,
     fst (search t1 t2 t3 t4 data u) <> SearchOk results savings rem) ->
  snd (search t1 t2 t3 t4 data u) = reset_if_new_day t1 t2 u /\
  searches_today (snd (search t1 t2 t3 t4 data u)) =
  (if date (last_search_reset u) <? date t1 then 0 else searches_today u).
Proof.
  intros Hno. rewrite <- (reset_if_new_day_counter t1 t2 u).
  assert (H : snd (search t1 t2 t3 t4 data u) = reset_if_new_day t1 t2 u);
    [| now rewrite H].
  revert Hno. unfold search, can_search.
  destruct (active <- premium_active (reset_if_new_day t1 t2 u) t3 ;; _)
    as [[|]|e]; try reflexivity.
  destruct (read_body data) as [[q i]|e]; [| reflexivity].
  destruct (is_empty q && is_empty i); [reflexivity|].
  unfold increment_search.
  destruct (premium_active (reset_if_new_day t1 t2 u) t4) as [a|e];
    [| reflexivity].
  destruct (negb a); cbn [fst snd]; intros Hno;
    exfalso; eapply Hno; reflexivity.
Qed.

(** X3. A premium account in force is never charged: when the expiry lies after
    both clock readings, a well-formed request is answered with the results
    and the unlimited sentinel, and the counter is not incremented. *)
Theorem search_active_premium_not_charged (t1 t2 t3 t4 : datetime)
  (data : json) (u : User) (e : datetime) (q i : string) :
  is_premium u = true ->
  premium_expires u = Some e ->
  t3 < e -> t4 < e ->
  read_body data = Ok (q, i) ->
  is_empty q && is_empty i = false ->
  search t1 t2 t3 t4 data u =
  (SearchOk (search_all q (Some i)) (savings_of (search_all q (Some i)))
            Unlimited,
   reset_if_new_day t1 t2 u).
Proof.
  intros Hp He H3 H4 Hbody Hne. unfold search, can_search.
  unfold increment_search, premium_active.
  destruct (reset_if_new_day_premium t1 t2 u) as [Hp' He'].
  rewrite Hp', He', Hp, He. cbn [bind].
  apply Z.ltb_lt in H3. apply Z.ltb_lt in H4. rewrite H3, Hbody, Hne, H4.
  cbn [negb]. unfold searches_remaining. now rewrite Hp', Hp.
Qed.

(** X5. The 400 answer.  For an account that passes the quota check and a body
    whose two fields are strings (or absent), the request is refused as empty
    exactly when both fields consist of whitespace only. *)
Theorem search_blank_input_rejected (t1 t2 t3 t4 : datetime) (data : json)
  (u : User) (q i : string) :
  fst (can_search t1 t2 t3 u) = Ok true ->
  dict_get data "query" (JStr "") = Ok (JStr q) ->
  dict_get data "isbn" (JStr "") = Ok (JStr i) ->
  (fst (search t1 t2 t3 t4 data u) = BadRequest <->
   all_space q = true /\ all_space i = true).
Proof.
  intros Hcan Hq Hi. unfold search.
  destruct (can_search t1 t2 t3 u) as [r u1]. cbn [fst] in Hcan. subst r.
  unfold read_body. rewrite Hq. cbn [bind str_strip]. rewrite Hi.
  cbn [bind str_strip].
  rewrite <- !strip_empty_iff.
  destruct (strip q) as [|cq rq]; destruct (strip i) as [|ci ri];
    cbn [is_empty andb];
    try (destruct (increment_search t4 u1) as [[[]|e] u2]);
    cbn [fst]; split; try discriminate; try (intros [H1 H2]; discriminate);
    auto.
Qed.

End HandlerFrames.

(** * Further properties of the marketplace clients and the aggregator *)

Section MarketplaceMore.

Variable float_of_string : string -> option double.
Variable requests_get : list (string * string) -> result json.

Local Abbreviation ebay_offer := (ebay_offer float_of_string).
Local Abbreviation ebay_loop := (ebay_loop float_of_string).
Local Abbreviation search_ebay := (search_ebay float_of_string requests_get).
Local Abbreviation search_all := (search_all float_of_string requests_get).

Lemma ebay_loop_all_handled (items : list json) (acc : list Offer) :
  forallb (fun item => match ebay_offer item with
                       | Ok _ => true
                       | Raise e => skipped e
                       end) items = true ->
  ebay_loop items acc =
  Ok (acc ++ flat_map (fun item => match ebay_offer item with
                                   | Ok o => [o]
                                   | Raise _ => []
                                   end) items).
Proof.
  revert acc. induction items as [|item items IH]; intros acc H.
  - cbn. now rewrite app_nil_r.
  - cbn [forallb] in H. apply andb_true_iff in H as [H1 H2].
    simpl. destruct (ebay_offer item) as [o|e].
    + rewrite (IH _ H2). now rewrite <- app_assoc.
    + rewrite H1. now rewrite (IH _ H2).
Qed.

Lemma ebay_loop_unhandled (items : list json) (acc : list Offer) :
  forallb (fun item => match ebay_offer item with
                       | Ok _ => true
                       | Raise e => skipped e
                       end) items = false ->
  exists e, ebay_loop items acc = Raise e.
Proof.
  revert acc. induction items as [|item items IH]; intros acc H;
    [discriminate H|].
  cbn [forallb] in H. simpl. destruct (ebay_offer item) as [o|e].
  - cbn [andb] in H. now apply IH.
  - destruct (skipped e); [now apply IH | now exists e].
Qed.

(** X9. On a response of the expected shape the client looks at the first five
    listings only.  If each of them yields an offer or fails with one of the
    three skipped exceptions, the result is the offers of those that succeed,
    one each and in the order of the listings; if any of them fails
    otherwise, the result is empty. *)
Theorem search_ebay_in_listing_order (f : BookPriceFinder) (query : string)
  (isbn : option string) (c : ascii) (k : string) (items : list json) :
  ebay_api_key f = Some (String c k) ->
  requests_get (ebay_params (String c k) (search_term_of query isbn)) =
  Ok (ebay_response items) ->
  search_ebay f query isbn =
  if forallb (fun item => match ebay_offer item with
                          | Ok _ => true
                          | Raise e => skipped e
                          end) (firstn 5 items)
  then flat_map (fun item => match ebay_offer item with
                             | Ok o => [o]
                             | Raise _ => []
                             end) (firstn 5 items)
  else [].
Proof.
  intros Hk Hr. unfold search_ebay, ebay_try. rewrite Hk, Hr.
  cbn [bind dict_get ebay_response lookup String.eqb Ascii.eqb Bool.eqb
       getitem_0 slice5].
  destruct (forallb _ (firstn 5 items)) eqn:E.
  - now rewrite (ebay_loop_all_handled _ [] E).
  - destruct (ebay_loop_unhandled _ [] E) as [e ->]. reflexivity.
Qed.

(** X10. A body that is not a JSON object, or an object without the
    [findItemsAdvancedResponse] entry, gives no offers. *)
Theorem search_ebay_body_without_results (f : BookPriceFinder)
  (query : string) (isbn : option string) (c : ascii) (k : string)
  (body : json) :
  ebay_api_key f = Some (String c k) ->
  requests_get (ebay_params (String c k) (search_term_of query isbn)) =
  Ok body ->
  (forall kvs, body = JObj kvs ->
               lookup "findItemsAdvancedResponse" kvs = None) ->
  search_ebay f query isbn = [].
Proof.
  intros Hk Hr Hno. unfold search_ebay, ebay_try. rewrite Hk, Hr.
  destruct body as [| b | z | d | s | l | kvs]; try reflexivity.
  cbn [bind dict_get]. now rewrite (Hno kvs eq_refl).
Qed.

Lemma ebay_offer_shape (item : json) (o : Offer) :
  ebay_offer item = Ok o ->
  source o = "eBay" /\ is_search_link o = None /\
  shipping o <> None /\ image o <> None.
Proof.
  unfold ebay_offer. intros H. repeat bind_step H.
  injection H as <-. cbn. repeat split; discriminate.
Qed.

(** X11. Every offer of the auction client is labelled "eBay", carries a shipping
    cost and an image entry, and never the search-link flag. *)
Theorem search_ebay_offers_shape (f : BookPriceFinder) (query : string)
  (isbn : option string) :
  Forall (fun o => source o = "eBay" /\ is_search_link o = None /\
                   shipping o <> None /\ image o <> None)
         (search_ebay f query isbn).
Proof.
  unfold search_ebay.
  destruct (ebay_api_key f) as [[|c k]|]; try constructor.
  destruct (ebay_try _ _ _ _) as [r|e] eqn:H; [| constructor].
  unfold ebay_try in H. repeat bind_step H.
  eapply ebay_loop_Forall; [exact ebay_offer_shape | constructor | exact H].
Qed.

(** X12. The aggregated list is the priced auction offers, sorted, followed by the
    one retail link: it is never empty, has at most six entries, ends with
    the link, and holds no auction offer whose price is 0 or less. *)
Theorem search_all_ends_with_link (f : BookPriceFinder) (query : string)
  (isbn : option string) :
  search_all f query isbn =
  sort_by_price (filter is_priced (search_ebay f query isbn)) ++
  search_amazon f query isbn /\
  (1 <= List.length (search_all f query isbn) <= 6)%nat /\
  Forall (fun o => is_priced o = true)
         (sort_by_price (filter is_priced (search_ebay f query isbn))).
Proof.
  assert (Heq : search_all f query isbn =
                sort_by_price (filter is_priced (search_ebay f query isbn)) ++
                search_amazon f query isbn).
  { unfold search_all, combine_results. rewrite !filter_app.
    rewrite (search_ebay_unflagged float_of_string requests_get).
    cbn [search_amazon filter is_priced is_link price is_search_link].
    replace (SFltb zero zero) with false by reflexivity.
    now rewrite app_nil_r. }
  assert (Hpriced :
            Forall (fun o => is_priced o = true)
                   (sort_by_price (filter is_priced (search_ebay f query isbn)))).
  { apply (Permutation_Forall
             (Permutation_sym (sort_by_price_perm _))).
    apply Forall_forall. intros o Ho. now apply filter_In in Ho. }
  split; [exact Heq|]. split; [| exact Hpriced].
  rewrite Heq, length_app.
  rewrite (Permutation_length (sort_by_price_perm _)).
  pose proof (filter_length_le is_priced (search_ebay f query isbn)).
  pose proof (search_ebay_length float_of_string requests_get f query isbn).
  cbn [search_amazon List.length]. lia.
Qed.

End MarketplaceMore.

(** * Further properties of the account table *)

Lemma ids_numbered_NoDup (s : Store) :
  map id s = map Z.of_nat (seq 1 (List.length s)) -> NoDup (map id s).
Proof.
  intros H. rewrite H. apply Injective_map_NoDup; [| apply seq_NoDup].
  intros a b Hab. now apply Nat2Z.inj.
Qed.

Lemma ids_numbered_bound (s : Store) (u : User) :
  map id s = map Z.of_nat (seq 1 (List.length s)) ->
  In u s -> 1 <= id u <= Z.of_nat (List.length s).
Proof.
  intros H Hin. apply (in_map id) in Hin. rewrite H in Hin.
  apply in_map_iff in Hin as [n [<- Hn]]. apply in_seq in Hn. lia.
Qed.

Lemma load_user_found (s : Store) (u : User) :
  NoDup (map id s) -> In u s -> load_user (id u) s = Some u.
Proof.
  unfold load_user. induction s as [|v s IH]; intros Hnd Hin; [destruct Hin|].
  cbn [map] in Hnd. inversion Hnd as [|? ? Hnot Hnd']; subst.
  cbn [find]. destruct (id v =? id u) eqn:E.
  - destruct Hin as [->|Hin]; [reflexivity|].
    apply Z.eqb_eq in E. exfalso. apply Hnot. rewrite E. now apply in_map.
  - destruct Hin as [->|Hin]; [now rewrite Z.eqb_refl in E|].
    now apply IH.
Qed.

Lemma find_by_email_app_single (e : string) (s : Store) (u : User) :
  find_by_email e s = None -> email u = e ->
  find_by_email e (s ++ [u]) = Some u.
Proof.
  unfold find_by_email. intros Hn He.
  induction s as [|v s IH]; cbn [app find] in *.
  - rewrite He, String.eqb_refl. reflexivity.
  - destruct (String.eqb (email v) e); [discriminate Hn | now apply IH].
Qed.

Lemma find_by_email_update (e : string) (s : Store) (u u' : User) :
  find_by_email e s = Some u -> email u' = e -> id u' = id u ->
  find_by_email e (update_user u' s) = Some u'.
Proof.
  unfold find_by_email, update_user. intros Hf He Hid.
  induction s as [|v s IH]; [discriminate Hf|].
  cbn [find map] in *. destruct (String.eqb (email v) e) eqn:Ev.
  - injection Hf as ->. rewrite Hid, Z.eqb_refl, He, String.eqb_refl.
    reflexivity.
  - destruct (id v =? id u').
    + now rewrite He, String.eqb_refl.
    + rewrite Ev. now apply IH.
Qed.

Lemma update_user_twice (u' : User) (s : Store) :
  update_user u' (update_user u' s) = update_user u' s.
Proof.
  unfold update_user. rewrite map_map. apply map_ext. intros v.
  destruct (id v =? id u') eqn:E; [now rewrite Z.eqb_refl | now rewrite E].
Qed.

Lemma update_user_emails (u u' : User) (s : Store) :
  NoDup (map id s) -> In u s -> id u' = id u -> email u' = email u ->
  map email (update_user u' s) = map email s.
Proof.
  intros Hnd Hin Hid He.
  destruct (update_user_split u u' s Hnd Hin Hid) as [l1 [l2 [-> ->]]].
  rewrite !map_app. cbn [map]. now rewrite He.
Qed.

(** X13. Signing up with an email that an account already has is refused and
    leaves the table as it was. *)
Theorem signup_duplicate_email (e pw_hash : string) (t1 t2 : datetime)
  (s : Store) (u : User) :
  In u s -> email u = e ->
  signup e pw_hash t1 t2 s = (EmailTaken, s).
Proof.
  intros Hin He. unfold signup.
  destruct (find_by_email e s) as [v|] eqn:Hf; [reflexivity|].
  unfold find_by_email in Hf.
  pose proof (find_none _ _ Hf u Hin) as Hu. cbn in Hu.
  rewrite He, String.eqb_refl in Hu. discriminate Hu.
Qed.

(** X15. The webhook is idempotent: delivering the same request a second time
    gives the same answer and the same table as delivering it once. *)
Theorem stripe_webhook_idempotent (input : WebhookInput) (s : Store) :
  stripe_webhook input (snd (stripe_webhook input s)) =
  stripe_webhook input s.
Proof.
  unfold stripe_webhook.
  destruct input as [| | event]; try reflexivity.
  destruct (getitem_key event "type") as [ty|e]; [| reflexivity].
  destruct (is_cancelled ty); [| reflexivity].
  destruct (d <- getitem_key event "data" ;; _) as [ce|e]; [| reflexivity].
  destruct (find_by_email_value ce s) as [user|] eqn:Hf; cbn [snd];
    [| now rewrite Hf].
  destruct ce as [| b | z | d | e | l | kvs]; try discriminate Hf.
  cbn [find_by_email_value] in *.
  pose proof (find_by_email_In _ _ _ Hf) as [_ He].
  rewrite (find_by_email_update e s user (set_is_premium user false) Hf He
             eq_refl).
  change (set_is_premium (set_is_premium user false) false)
    with (set_is_premium user false).
  now rewrite update_user_twice.
Qed.

Lemma stripe_webhook_rows (input : WebhookInput) (s : Store) :
  NoDup (map id s) ->
  Forall2 (fun v v' => v' = v \/ v' = set_is_premium v false)
          s (snd (stripe_webhook input s)).
Proof.
  intros Hnd.
  assert (Hsame : forall l : Store,
             Forall2 (fun v v' => v' = v \/ v' = set_is_premium v false) l l).
  { induction l; constructor; auto. }
  unfold stripe_webhook.
  destruct input as [| | event]; try apply Hsame.
  destruct (getitem_key event "type") as [ty|e]; [| apply Hsame].
  destruct (is_cancelled ty); [| apply Hsame].
  destruct (d <- getitem_key event "data" ;; _) as [ce|e]; [| apply Hsame].
  destruct (find_by_email_value ce s) as [user|] eqn:Hf; [| apply Hsame].
  cbn [snd].
  destruct ce as [| b | z | d | e | l | kvs]; try discriminate Hf.
  apply find_by_email_In in Hf as [Hin _].
  destruct (update_user_split user (set_is_premium user false) s Hnd Hin
              eq_refl) as [l1 [l2 [-> ->]]].
  apply Forall2_app; [apply Hsame|]. constructor; [now right | apply Hsame].
Qed.

(** X16. Whatever the webhook receives, each account afterwards is the account it
    was or that account with the premium flag cleared: the webhook never
    grants premium and never touches an expiry, a counter or an email.  When
    its answer is not 200 (a rejected signature or payload, or an exception
    on a missing entry of the event) the table is unchanged. *)
Theorem stripe_webhook_only_clears_flags (input : WebhookInput) (s : Store) :
  NoDup (map id s) ->
  Forall2 (fun v v' => v' = v \/ v' = set_is_premium v false)
          s (snd (stripe_webhook input s)) /\
  (fst (stripe_webhook input s) <> Ok 200 ->
   snd (stripe_webhook input s) = s).
Proof.
  intros Hnd. split; [now apply stripe_webhook_rows|].
  unfold stripe_webhook.
  destruct input as [| | event]; try reflexivity.
  destruct (getitem_key event "type") as [ty|e]; [| reflexivity].
  destruct (is_cancelled ty); [| reflexivity].
  destruct (d <- getitem_key event "data" ;; _) as [ce|e]; [| reflexivity].
  destruct (find_by_email_value ce s) as [user|]; [| reflexivity].
  cbn [fst]. intros H. now contradiction H.
Qed.

Lemma load_user_app_single (s : Store) (x : User) :
  (forall v, In v s -> id v <> id x) ->
  load_user (id x) (s ++ [x]) = Some x.
Proof.
  unfold load_user. induction s as [|v s IH]; intros Hold; cbn [app find].
  - now rewrite Z.eqb_refl.
  - destruct (id v =? id x) eqn:E.
    + apply Z.eqb_eq in E. exfalso. now apply (Hold v (or_introl eq_refl)).
    + apply IH. intros w Hw. apply Hold. now right.
Qed.

Lemma cleared_rows_keep (l l' : Store) :
  Forall2 (fun v v' => v' = v \/ v' = set_is_premium v false) l l' ->
  map email l' = map email l /\
  (Forall (fun u => 0 <= searches_today u) l ->
   Forall (fun u => 0 <= searches_today u) l').
Proof.
  induction 1 as [|v v' l l' Hv _ [IHe IHc]]; [now split|].
  cbn [map]. rewrite IHe. split.
  - destruct Hv as [->| ->]; reflexivity.
  - intros Hall. inversion Hall; subst. constructor; [| now apply IHc].
    destruct Hv as [->| ->]; assumption.
Qed.

Lemma find_by_email_found (s : Store) (u : User) :
  NoDup (map email s) -> In u s -> find_by_email (email u) s = Some u.
Proof.
  unfold find_by_email. induction s as [|v s IH]; intros Hnd Hin;
    [destruct Hin|].
  cbn [map] in Hnd. inversion Hnd as [|? ? Hnot Hnd']; subst.
  cbn [find]. destruct (String.eqb (email v) (email u)) eqn:E.
  - destruct Hin as [->|Hin]; [reflexivity|].
    apply String.eqb_eq in E. exfalso. apply Hnot. rewrite E.
    now apply in_map.
  - destruct Hin as [->|Hin]; [now rewrite String.eqb_refl in E|].
    now apply IH.
Qed.

Section ReachableMore.

Variable float_of_string : string -> option double.
Variable requests_get : list (string * string) -> result json.
Variable finder : BookPriceFinder.

Local Abbreviation search := (search float_of_string requests_get finder).
Local Abbreviation handle := (handle float_of_string requests_get finder).
Local Abbreviation reachable :=
  (reachable float_of_string requests_get finder).

(** The account after [search] is the one before with, at most, another
    counter and another reset time. *)
Lemma search_account_frame (t1 t2 t3 t4 : datetime) (data : json) (u : User) :
  exists n t,
    snd (search t1 t2 t3 t4 data u) =
    set_last_search_reset (set_searches_today u n) t /\
    (0 <= searches_today u -> 0 <= n).
Proof.
  assert (H1 : exists n t,
             reset_if_new_day t1 t2 u =
             set_last_search_reset (set_searches_today u n) t /\
             (0 <= searches_today u -> 0 <= n)).
  { unfold reset_if_new_day.
    destruct (date (last_search_reset u) <? date t1).
    - exists 0, t2. split; [reflexivity | lia].
    - exists (searches_today u), (last_search_reset u).
      split; [now destruct u | auto]. }
  destruct H1 as [n [t [E Hn]]].
  assert (H2 : snd (search t1 t2 t3 t4 data u) = reset_if_new_day t1 t2 u \/
               snd (search t1 t2 t3 t4 data u) =
               set_searches_today (reset_if_new_day t1 t2 u)
                 (searches_today (reset_if_new_day t1 t2 u) + 1)).
  { unfold search, can_search.
    destruct (active <- premium_active (reset_if_new_day t1 t2 u) t3 ;; _)
      as [[|]|e]; try (now left).
    destruct (read_body data) as [[q i]|e]; [| now left].
    destruct (is_empty q && is_empty i); [now left|].
    unfold increment_search.
    destruct (premium_active (reset_if_new_day t1 t2 u) t4) as [a|e];
      [| now left].
    destruct (negb a); [now right | now left]. }
  destruct H2 as [-> | ->].
  - now exists n, t.
  - rewrite E. exists (n + 1), t. split; [reflexivity|].
    cbn [searches_today set_last_search_reset set_searches_today].
    intros H. specialize (Hn H). lia.
Qed.

Lemma handle_store_wf (r : Request) (s : Store) :
  store_wf s -> store_wf (handle r s).
Proof.
  intros [Hids [Hmail Hcnt]].
  pose proof (ids_numbered_NoDup s Hids) as Hnd.
  split; [now apply handle_ids|].
  destruct r as [e h t1 t2 | uid t1 t2 t3 t4 data | uid now | input |];
    unfold handle.
  - unfold signup. destruct (find_by_email e s) eqn:Hf; [now split|].
    cbn [snd]. split.
    + rewrite map_app. apply NoDup_app; [exact Hmail | |].
      * cbn. constructor; [intros [] | constructor].
      * intros a Ha [<-|[]]. apply in_map_iff in Ha as [v [Hv Hin]].
        unfold find_by_email in Hf.
        pose proof (find_none _ _ Hf v Hin) as Hne. cbn in Hne.
        rewrite Hv, String.eqb_refl in Hne. discriminate Hne.
    + apply Forall_app. split; [exact Hcnt|].
      constructor; [cbn; lia | constructor].
  - destruct (load_user uid s) as [u|] eqn:Hf; [| now split].
    apply load_user_In in Hf as [Hin _].
    destruct (search_account_frame t1 t2 t3 t4 data u) as [n [t [-> Hn]]].
    rewrite Forall_forall in Hcnt. split.
    + now rewrite (update_user_emails
                     u (set_last_search_reset (set_searches_today u n) t) s
                     Hnd Hin eq_refl eq_refl).
    + apply update_user_Forall; [| now apply Forall_forall].
      cbn. apply Hn. now apply Hcnt.
  - destruct (load_user uid s) as [u|] eqn:Hf; [| now split].
    apply load_user_In in Hf as [Hin _].
    rewrite Forall_forall in Hcnt. split.
    + now rewrite (update_user_emails u (payment_success now u) s
                     Hnd Hin eq_refl eq_refl).
    + apply update_user_Forall; [| now apply Forall_forall].
      cbn. now apply Hcnt.
  - destruct (cleared_rows_keep _ _ (stripe_webhook_rows input s Hnd))
      as [He Hc].
    split; [now rewrite He | now apply Hc].
  - now split.
Qed.

Lemma reachable_store_wf (s : Store) : reachable s -> store_wf s.
Proof.
  induction 1 as [| r s Hr IH].
  - split; [reflexivity|]. split; constructor.
  - now apply handle_store_wf.
Qed.

(** X17. In every table the application can reach, no two accounts share a
    primary key or an email, and the keys are 1, 2, ... in order of signup. *)
Theorem reachable_identities_unique (s : Store) :
  reachable s ->
  NoDup (map id s) /\
  NoDup (map email s) /\
  map id s = map Z.of_nat (seq 1 (List.length s)).
Proof.
  intros Hr. destruct (reachable_store_wf s Hr) as [Hids [Hmail _]].
  split; [now apply ids_numbered_NoDup|]. now split.
Qed.

(** X18. Lookup finds what was stored: a stored account is the result of loading
    its key and of searching its email. *)
Theorem reachable_lookup_roundtrip (s : Store) (u : User) :
  reachable s -> In u s ->
  load_user (id u) s = Some u /\ find_by_email (email u) s = Some u.
Proof.
  intros Hr Hin. destruct (reachable_store_wf s Hr) as [Hids [Hmail _]].
  split; [apply load_user_found; [now apply ids_numbered_NoDup | exact Hin]|].
  now apply find_by_email_found.
Qed.

(** X19. The counter of a stored account is never negative, so the allowance
    reported for an account without the premium flag lies between 0 and 5. *)
Theorem reachable_counter_nonneg (s : Store) (u : User) :
  reachable s -> In u s ->
  0 <= searches_today u /\
  (is_premium u = false ->
   exists n, searches_remaining u = Count n /\ 0 <= n <= 5).
Proof.
  intros Hr Hin. destruct (reachable_store_wf s Hr) as [_ [_ Hcnt]].
  rewrite Forall_forall in Hcnt. pose proof (Hcnt u Hin) as H0.
  split; [exact H0|]. intros Hp. unfold searches_remaining. rewrite Hp.
  cbn [negb]. eexists. split; [reflexivity | lia].
Qed.

(** X14. Signing up with an unused email appends one account: it gets the next
    key, is found under its email and its key, is not premium, and passes the
    quota check at once. *)
Theorem signup_new_account (s : Store) (e pw_hash : string)
  (t_reset t_created : datetime) :
  reachable s ->
  find_by_email e s = None ->
  let user :=
    mkUser (Z.of_nat (List.length s) + 1) e (Some pw_hash) false None None
           0 t_reset t_created in
  signup e pw_hash t_reset t_created s = (SignedUp, s ++ [user]) /\
  find_by_email e (s ++ [user]) = Some user /\
  load_user (id user) (s ++ [user]) = Some user /\
  (forall t1 t2 t3, fst (can_search t1 t2 t3 user) = Ok true).
Proof.
  intros Hr Hf user. destruct (reachable_store_wf s Hr) as [Hids _].
  split; [unfold signup; now rewrite Hf|].
  split; [now apply find_by_email_app_single|]. split.
  - apply load_user_app_single. intros v Hv.
    pose proof (ids_numbered_bound s v Hids Hv). subst user. cbn [id]. lia.
  - intros t1 t2 t3. unfold can_search, reset_if_new_day. cbn [fst].
    destruct (date (last_search_reset user) <? date t1); reflexivity.
Qed.

Lemma related_row (R : User -> User -> Prop) (l l' : Store) (u : User) :
  Forall2 R l l' -> In u l -> exists u', In u' l' /\ R u u'.
Proof.
  induction 1 as [|v v' l l' Hv _ IH]; intros Hin; [destruct Hin|].
  destruct Hin as [->|Hin].
  - exists v'. split; [now left | exact Hv].
  - destruct (IH Hin) as [u' [Hu' HR]]. exists u'. split; [now right | exact HR].
Qed.

Lemma update_user_keeps (s : Store) (v new u : User) :
  NoDup (map id s) -> In v s -> In u s ->
  id new = id v -> email new = email v ->
  password_hash new = password_hash v -> created_at new = created_at v ->
  exists u',
    In u' (update_user new s) /\ id u' = id u /\ email u' = email u /\
    password_hash u' = password_hash u /\ created_at u' = created_at u.
Proof.
  intros Hnd Hv Hu Hid He Hpw Hc.
  exists (if id u =? id new then new else u). split.
  - unfold update_user.
    apply (in_map (fun x => if id x =? id new then new else x)). exact Hu.
  - destruct (id u =? id new) eqn:E; [| repeat split].
    apply Z.eqb_eq in E.
    assert (u = v).
    { pose proof (load_user_found s u Hnd Hu) as H1.
      pose proof (load_user_found s v Hnd Hv) as H2.
      rewrite E, Hid, H2 in H1. now injection H1. }
    subst u. repeat split; assumption.
Qed.

(** X20. No request deletes an account or changes who it belongs to: after any
    handled request the table is at least as long, and every account that
    was stored is still there under the same key, with the same email,
    credential hash and creation time. *)
Theorem handle_keeps_accounts (r : Request) (s : Store) (u : User) :
  reachable s -> In u s ->
  (List.length s <= List.length (handle r s))%nat /\
  exists u',
    In u' (handle r s) /\ id u' = id u /\ email u' = email u /\
    password_hash u' = password_hash u /\ created_at u' = created_at u.
Proof.
  intros Hr Hin. destruct (reachable_store_wf s Hr) as [Hids _].
  pose proof (ids_numbered_NoDup s Hids) as Hnd.
  assert (Hsame : exists u', In u' s /\ id u' = id u /\ email u' = email u /\
                             password_hash u' = password_hash u /\
                             created_at u' = created_at u)
    by (exists u; repeat split; exact Hin).
  destruct r as [e h t1 t2 | uid t1 t2 t3 t4 data | uid now | input |];
    unfold handle.
  - unfold signup. destruct (find_by_email e s); cbn [snd];
      [split; [lia | exact Hsame]|].
    rewrite length_app. split; [lia|].
    exists u. repeat split. apply in_or_app. now left.
  - destruct (load_user uid s) as [v|] eqn:Hf; [| split; [lia | exact Hsame]].
    apply load_user_In in Hf as [Hv _].
    rewrite update_user_length. split; [lia|].
    destruct (search_account_frame t1 t2 t3 t4 data v) as [n [t [-> _]]].
    now apply (update_user_keeps s v _ u Hnd Hv Hin).
  - destruct (load_user uid s) as [v|] eqn:Hf; [| split; [lia | exact Hsame]].
    apply load_user_In in Hf as [Hv _].
    rewrite update_user_length. split; [lia|].
    now apply (update_user_keeps s v _ u Hnd Hv Hin).
  - pose proof (stripe_webhook_rows input s Hnd) as H2.
    split; [rewrite (Forall2_length H2); lia|].
    destruct (related_row _ _ _ u H2 Hin) as [u' [Hu' [->| ->]]];
      [exists u | exists (set_is_premium u false)]; repeat split; assumption.
  - split; [lia | exact Hsame].
Qed.

End ReachableMore.

(** * The further properties at concrete inputs *)

Lemma can_search_same_day_idempotent_witness :
  let day2 := 2 * microseconds_per_day in
  date day2 <= date (day2 + 1) /\
  date (day2 + 5) = date day2 /\
  snd (can_search (day2 + 5) (day2 + 6) (day2 + 7)
         (snd (can_search day2 (day2 + 1) (day2 + 2) exhausted_user))) =
  snd (can_search day2 (day2 + 1) (day2 + 2) exhausted_user).
Proof.
  intros day2.
  assert (H1 : date day2 <= date (day2 + 1))
    by (apply Z.leb_le; reflexivity).
  assert (H2 : date (day2 + 5) = date day2) by reflexivity.
  split; [exact H1|]. split; [exact H2|].
  exact (can_search_same_day_idempotent
           day2 (day2 + 1) (day2 + 2) (day2 + 5) (day2 + 6) (day2 + 7)
           exhausted_user H1 H2).
Defined.

Lemma payment_success_thirty_days_witness :
  5 < 0 + 30 * microseconds_per_day /\
  fst (can_search 0 0 5 (payment_success 0 exhausted_user)) = Ok true.
Proof.
  assert (H : 5 < 0 + 30 * microseconds_per_day) by reflexivity.
  split; [exact H|].
  exact (proj1 (proj1 (proj2 (proj2 (proj2 (proj2
           (payment_success_thirty_days 0 0 0 5 exhausted_user))))) H)).
Defined.

Lemma search_daily_limit_witness :
  let calls : list SearchCall :=
    [(0, 0, 0, 0, sample_body); (1, 1, 1, 1, sample_body);
     (2, 2, 2, 2, sample_body)] in
  let served :=
    fold_left (fun (v : User) (c : SearchCall) =>
                 let '(c1, c2, c3, c4, body) := c in
                 snd (search float_of_decimal failing_service sample_finder
                             c1 c2 c3 c4 body v)) calls free_user in
  is_premium free_user = false /\
  searches_today free_user <= 5 /\
  searches_today served = 5 /\
  search float_of_decimal failing_service sample_finder 3 3 3 3
         sample_body served = (Forbidden, served).
Proof.
  intros calls served.
  assert (Hp : is_premium free_user = false) by reflexivity.
  assert (Hc : searches_today free_user <= 5)
    by (apply Z.leb_le; reflexivity).
  assert (Hall :
            Forall (fun c : SearchCall =>
                      let '(c1, _, _, _, body) := c in
                      date c1 <= date (last_search_reset free_user) /\
                      exists cq ci, read_body body = Ok (cq, ci) /\
                                    is_empty cq && is_empty ci = false)
                   calls).
  { repeat constructor; try (apply Z.leb_le; reflexivity);
      exists "Calculus", ""; split; reflexivity. }
  assert (Hd : date 3 <= date (last_search_reset free_user))
    by (apply Z.leb_le; reflexivity).
  pose proof (search_daily_limit
                float_of_decimal failing_service sample_finder calls
                free_user 3 3 3 3 sample_body "Calculus" ""
                Hp Hc Hall Hd eq_refl eq_refl) as [Hcount [Hfull _]].
  split; [exact Hp|]. split; [exact Hc|]. split; [exact Hcount|].
  apply Hfull. apply Z.leb_le. reflexivity.
Defined.

Lemma search_rejected_not_charged_witness :
  let data := JObj [("query", JStr "   ")] in
  (forall results savings rem,
     fst (search float_of_decimal failing_service sample_finder 0 0 0 0
                 data free_user) <> SearchOk results savings rem) /\
  snd (search float_of_decimal failing_service sample_finder 0 0 0 0
              data free_user) = free_user.
Proof.
  intros data.
  assert (H : forall results savings rem,
             fst (search float_of_decimal failing_service sample_finder
                         0 0 0 0 data free_user)
             <> SearchOk results savings rem).
  { intros results savings rem E. vm_compute in E. discriminate E. }
  split; [exact H|].
  exact (proj1 (search_rejected_not_charged
                  float_of_decimal failing_service sample_finder
                  0 0 0 0 data free_user H)).
Defined.

Lemma search_active_premium_not_charged_witness :
  is_premium subscriber = true /\
  premium_expires subscriber = Some (add_days 0 30) /\
  5 < add_days 0 30 /\
  read_body sample_body = Ok ("Calculus", "") /\
  snd (search float_of_decimal failing_service sample_finder 0 0 5 5
              sample_body subscriber) = subscriber.
Proof.
  assert (H5 : 5 < add_days 0 30) by reflexivity.
  split; [reflexivity|]. split; [reflexivity|]. split; [exact H5|].
  split; [reflexivity|].
  exact (f_equal snd
           (search_active_premium_not_charged
              float_of_decimal failing_service sample_finder 0 0 5 5
              sample_body subscriber (add_days 0 30) "Calculus" ""
              eq_refl eq_refl H5 H5 eq_refl eq_refl)).
Defined.

Lemma search_blank_input_rejected_witness :
  let data := JObj [("query", JStr "  ")] in
  fst (can_search 0 0 0 free_user) = Ok true /\
  dict_get data "query" (JStr "") = Ok (JStr "  ") /\
  dict_get data "isbn" (JStr "") = Ok (JStr "") /\
  fst (search float_of_decimal failing_service sample_finder 0 0 0 0
              data free_user) = BadRequest.
Proof.
  intros data.
  split; [reflexivity|]. split; [reflexivity|]. split; [reflexivity|].
  exact (proj2 (search_blank_input_rejected
                  float_of_decimal failing_service sample_finder 0 0 0 0
                  data free_user "  " "" eq_refl eq_refl eq_refl)
               (conj eq_refl eq_refl)).
Defined.

Lemma strip_spec_witness :
  strip "  ab " = "ab" /\ is_space "a" = false.
Proof.
  assert (H : strip "  ab " = "ab") by reflexivity.
  split; [exact H|].
  exact (proj1 (proj2 (strip_spec "  ab ")) "a"%char "b" H).
Defined.

Lemma search_ebay_in_listing_order_witness :
  ebay_api_key sample_finder = Some "app-key" /\
  service_of sample_items
    (ebay_params "app-key" (search_term_of "Calculus" None)) =
  Ok (ebay_response sample_items) /\
  map price (search_ebay float_of_decimal (service_of sample_items)
                         sample_finder "Calculus" None) =
  [decimal "12.00"; decimal "8.50"; decimal "20.00"].
Proof.
  split; [reflexivity|]. split; [reflexivity|].
  rewrite (search_ebay_in_listing_order
             float_of_decimal (service_of sample_items) sample_finder
             "Calculus" None "a"%char "pp-key" sample_items
             eq_refl eq_refl).
  reflexivity.
Defined.

Lemma search_ebay_body_without_results_witness :
  let service := fun _ : list (string * string) => Ok (JArr [JStr "busy"]) in
  ebay_api_key sample_finder = Some "app-key" /\
  (forall kvs, JArr [JStr "busy"] = JObj kvs ->
               lookup "findItemsAdvancedResponse" kvs = None) /\
  search_ebay float_of_decimal service sample_finder "Calculus" None = [].
Proof.
  intros service.
  assert (H : forall kvs, JArr [JStr "busy"] = JObj kvs ->
                          lookup "findItemsAdvancedResponse" kvs = None)
    by (intros kvs E; discriminate E).
  split; [reflexivity|]. split; [exact H|].
  exact (search_ebay_body_without_results
           float_of_decimal service sample_finder "Calculus" None
           "a"%char "pp-key" (JArr [JStr "busy"]) eq_refl eq_refl H).
Defined.

Lemma signup_duplicate_email_witness :
  In free_user sample_store /\
  signup "reader@example.org" "other hash" 9 9 sample_store =
  (EmailTaken, sample_store).
Proof.
  assert (H : In free_user sample_store) by (left; reflexivity).
  split; [exact H|].
  exact (signup_duplicate_email "reader@example.org" "other hash" 9 9
           sample_store free_user H eq_refl).
Defined.

Lemma stripe_webhook_only_clears_flags_witness :
  NoDup (map id sample_store) /\
  Forall2 (fun v v' => v' = v \/ v' = set_is_premium v false)
          sample_store
          (snd (stripe_webhook (Verified (cancel_event "member@example.org"))
                               sample_store)).
Proof.
  assert (Hnd : NoDup (map id sample_store)).
  { cbn. repeat constructor; cbn; intuition discriminate. }
  split; [exact Hnd|].
  exact (proj1 (stripe_webhook_only_clears_flags
                  (Verified (cancel_event "member@example.org"))
                  sample_store Hnd)).
Defined.

Lemma reachable_identities_unique_witness :
  reachable float_of_decimal failing_service sample_finder grown_store /\
  NoDup (map email grown_store).
Proof.
  assert (Hr : reachable float_of_decimal failing_service sample_finder
                         grown_store).
  { unfold grown_store. apply reach_handle. apply reach_handle.
    apply reach_empty. }
  split; [exact Hr|].
  exact (proj1 (proj2 (reachable_identities_unique
                         float_of_decimal failing_service sample_finder
                         grown_store Hr))).
Defined.

Lemma reachable_lookup_roundtrip_witness :
  let u := mkUser 1 "reader@example.org" (Some "hash") true None
                  (Some (add_days 0 30)) 0 0 0 in
  reachable float_of_decimal failing_service sample_finder grown_store /\
  In u grown_store /\
  load_user 1 grown_store = Some u /\
  find_by_email "reader@example.org" grown_store = Some u.
Proof.
  intros u.
  assert (Hr : reachable float_of_decimal failing_service sample_finder
                         grown_store).
  { unfold grown_store. apply reach_handle. apply reach_handle.
    apply reach_empty. }
  assert (Hin : In u grown_store) by (left; reflexivity).
  split; [exact Hr|]. split; [exact Hin|].
  exact (reachable_lookup_roundtrip
           float_of_decimal failing_service sample_finder grown_store u
           Hr Hin).
Defined.

Lemma reachable_counter_nonneg_witness :
  let u := mkUser 1 "reader@example.org" (Some "hash") true None
                  (Some (add_days 0 30)) 0 0 0 in
  reachable float_of_decimal failing_service sample_finder grown_store /\
  In u grown_store /\
  0 <= searches_today u.
Proof.
  intros u.
  assert (Hr : reachable float_of_decimal failing_service sample_finder
                         grown_store).
  { unfold grown_store. apply reach_handle. apply reach_handle.
    apply reach_empty. }
  assert (Hin : In u grown_store) by (left; reflexivity).
  split; [exact Hr|]. split; [exact Hin|].
  exact (proj1 (reachable_counter_nonneg
                  float_of_decimal failing_service sample_finder
                  grown_store u Hr Hin)).
Defined.

Lemma signup_new_account_witness :
  let user := mkUser 2 "student@example.org" (Some "hash2") false None None
                     0 7 8 in
  reachable float_of_decimal failing_service sample_finder grown_store /\
  find_by_email "student@example.org" grown_store = None /\
  signup "student@example.org" "hash2" 7 8 grown_store =
  (SignedUp, grown_store ++ [user]) /\
  load_user 2 (grown_store ++ [user]) = Some user.
Proof.
  intros user.
  assert (Hr : reachable float_of_decimal failing_service sample_finder
                         grown_store).
  { unfold grown_store. apply reach_handle. apply reach_handle.
    apply reach_empty. }
  assert (Hf : find_by_email "student@example.org" grown_store = None)
    by reflexivity.
  split; [exact Hr|]. split; [exact Hf|].
  destruct (signup_new_account
              float_of_decimal failing_service sample_finder grown_store
              "student@example.org" "hash2" 7 8 Hr Hf)
    as [Hs [_ [Hl _]]].
  split; [exact Hs | exact Hl].
Defined.

Lemma handle_keeps_accounts_witness :
  let u := mkUser 1 "reader@example.org" (Some "hash") true None
                  (Some (add_days 0 30)) 0 0 0 in
  let r := ReqWebhook (Verified (cancel_event "reader@example.org")) in
  reachable float_of_decimal failing_service sample_finder grown_store /\
  In u grown_store /\
  exists u',
    In u' (handle float_of_decimal failing_service sample_finder r
                  grown_store) /\
    id u' = id u /\ email u' = email u /\
    password_hash u' = password_hash u /\ created_at u' = created_at u.
Proof.
  intros u r.
  assert (Hr : reachable float_of_decimal failing_service sample_finder
                         grown_store).
  { unfold grown_store. apply reach_handle. apply reach_handle.
    apply reach_empty. }
  assert (Hin : In u grown_store) by (left; reflexivity).
  split; [exact Hr|]. split; [exact Hin|].
  exact (proj2 (handle_keeps_accounts
                  float_of_decimal failing_service sample_finder r
                  grown_store u Hr Hin)).
Defined.
